(** * Forum memory: the bounded, persisted diary journal of the AstrBook plugin

    A shallow embedding of [adapter/forum_memory.py] (classes [MemoryItem]
    and [ForumMemory]) together with the properties of its specification.

    The file is organised as follows.
    - [Py]: the fragment of the Python run time the module relies on:
      values (those that JSON can carry, and objects that it cannot),
      exceptions, sequence slicing, what [json.dump] refuses, and the
      naive / fixed-offset [datetime] with [isoformat], [strftime] and the
      [fromisoformat] of Python 3.11;
    - the embedding of [MemoryItem] and [ForumMemory], written in a state
      and exception monad over the object and an explicit world (backing
      files, paths that cannot be written or examined, writes that fail,
      log sink);
    - the vocabulary of the properties and sample data;
    - the lemmas and the theorems about the embedding.

    Strings are byte strings (the UTF-8 encoding of the Python text); the
    clock reading of [datetime.now()] is an argument of [add_diary]. *)

From Stdlib Require Import ZArith String Ascii List Lia Bool.
From stdpp Require Import base option list gmap strings propset.

Local Open Scope string_scope.
Local Open Scope list_scope.
Local Open Scope Z_scope.
Local Set Warnings "-register-all".

(* ===================================================================== *)
(** * Python run-time fragment *)
(* ===================================================================== *)

Module Py.

(** ** Exceptions and the exception monad *)

(** The exception classes that the modelled code can raise.  All of them
    derive from Python's [Exception], so an [except Exception] clause
    catches every one of them. *)
Inductive exn : Type :=
| KeyError (key : string)
| ValueError
| TypeError
| AttributeError
| OSError
| JSONDecodeError
| UnicodeDecodeError.

Inductive result (A : Type) : Type :=
| Ok (a : A)
| Raise (e : exn).
Arguments Ok {A} a.
Arguments Raise {A} e.

Definition bind {A B} (m : result A) (k : A -> result B) : result B :=
  match m with
  | Ok a => k a
  | Raise e => Raise e
  end.

(** [try: body except Exception as e: handler e] *)
Definition try_except {A} (body : result A) (handler : exn -> result A)
  : result A :=
  match body with
  | Ok a => Ok a
  | Raise e => handler e
  end.

Definition is_ok {A} (m : result A) : bool :=
  match m with Ok _ => true | Raise _ => false end.

(** Evaluation of a list comprehension [[f x for x in xs if keep x]] whose
    filter and head expressions may both raise: elements are visited in
    order and the first exception aborts the whole comprehension. *)
Fixpoint comprehension {A B} (keep : A -> result bool) (f : A -> result B)
    (xs : list A) : result (list B) :=
  match xs with
  | [] => Ok []
  | x :: xs' =>
      bind (keep x) (fun k =>
        if k
        then bind (f x) (fun y =>
               bind (comprehension keep f xs') (fun ys => Ok (y :: ys)))
        else comprehension keep f xs')
  end.

(** ** Values *)

(** The Python objects that the program handles: those that [json.load]
    produces, and [PObject] for every other object (a set, a [datetime],
    ...), which a caller may put into the metadata of an entry and which
    [json.dump] cannot serialise.  A [float] is carried by its literal only:
    the program never computes with one.  A [dict] keeps its items in
    insertion order; keys are strings, as they are in every JSON object. *)
Inductive pyval : Type :=
| PNone
| PBool (b : bool)
| PInt (z : Z)
| PFloat (literal : string)
| PStr (s : string)
| PList (items : list pyval)
| PDict (items : list (string * pyval))
| PObject.

Definition dict : Type := list (string * pyval).

(** [d.get(key)] on a dict: the value bound to [key], if any. *)
Fixpoint dict_lookup (key : string) (d : dict) : option pyval :=
  match d with
  | [] => None
  | (k, v) :: d' => if String.eqb k key then Some v else dict_lookup key d'
  end.

(** [d[key]] raises [KeyError] when the key is absent. *)
Definition getitem (d : dict) (key : string) : result pyval :=
  match dict_lookup key d with
  | Some v => Ok v
  | None => Raise (KeyError key)
  end.

(** [d.get(key, default)] *)
Definition dict_get (d : dict) (key : string) (default : pyval) : pyval :=
  match dict_lookup key d with
  | Some v => v
  | None => default
  end.

(** [v.get(key)] on an arbitrary value: only a dict has the method, on any
    other JSON value the attribute lookup raises [AttributeError].  A
    missing key yields [None]. *)
Definition method_get (v : pyval) (key : string) : result pyval :=
  match v with
  | PDict d => Ok (dict_get d key PNone)
  | _ => Raise AttributeError
  end.

(** [v == "literal"] for a string literal: true for that very string only. *)
Definition eq_str (v : pyval) (lit : string) : bool :=
  match v with
  | PStr s => String.eqb s lit
  | _ => false
  end.

(** [for x in v]: a list yields its items, a dict its keys, a string its
    characters (one-character strings); every other JSON value is not
    iterable. *)
Definition iterate (v : pyval) : result (list pyval) :=
  match v with
  | PList l => Ok l
  | PDict d => Ok (map (fun kv => PStr (fst kv)) d)
  | PStr s => Ok (map (fun c => PStr (String c EmptyString))
                      (list_ascii_of_string s))
  | _ => Raise TypeError
  end.

(** ** Serialisation *)

(** The integers that [str] converts: at most 4300 decimal digits. *)
Definition int_max_str_digits : Z := 4300.

(** The exception that [json.dump] raises on the value, if any: the
    encoder walks the value in order and stops at the first part it cannot
    write, [TypeError] for an object that is not serialisable and
    [ValueError] for an integer beyond the digit limit of [str]. *)
Fixpoint encode_error (v : pyval) : option exn :=
  match v with
  | PObject => Some TypeError
  | PInt z =>
      if Z.abs z <? 10 ^ int_max_str_digits then None else Some ValueError
  | PList items =>
      (fix first (l : list pyval) : option exn :=
         match l with
         | [] => None
         | x :: l' =>
             match encode_error x with
             | Some e => Some e
             | None => first l'
             end
         end) items
  | PDict items =>
      (fix first (l : list (string * pyval)) : option exn :=
         match l with
         | [] => None
         | (_, x) :: l' =>
             match encode_error x with
             | Some e => Some e
             | None => first l'
             end
         end) items
  | _ => None
  end.

(** ** Sequence slicing *)

(** The way a slice bound is clamped against the length of the sequence:
    a negative bound counts from the end. *)
Definition slice_index (len : nat) (i : Z) : nat :=
  if i <? 0 then Z.to_nat (Z.max (Z.of_nat len + i) 0)
  else Nat.min (Z.to_nat i) len.

(** [l[start:]] *)
Definition slice_from {A} (start : Z) (l : list A) : list A :=
  drop (slice_index (length l) start) l.

(** [l[:stop]] *)
Definition slice_to {A} (stop : Z) (l : list A) : list A :=
  take (slice_index (length l) stop) l.

(** [sep.join(parts)] *)
Fixpoint join (sep : string) (parts : list string) : string :=
  match parts with
  | [] => ""
  | [p] => p
  | p :: ps => p +:+ sep +:+ join sep ps
  end.

(** [s[:n]]: the first [n] characters of the text.  A character of the
    UTF-8 encoding starts at every byte that is not a continuation byte
    ([10xxxxxx]). *)
Definition is_continuation (c : ascii) : bool :=
  let k := nat_of_ascii c in (128 <=? k)%nat && (k <? 192)%nat.

Fixpoint str_prefix (n : nat) (s : string) : string :=
  match s with
  | EmptyString => EmptyString
  | String c r =>
      if is_continuation c then String c (str_prefix n r)
      else
        match n with
        | O => EmptyString
        | S n' => String c (str_prefix n' r)
        end
  end.

(** ** [datetime] *)

(** A [datetime] value: the calendar fields and, for an aware value, the
    offset from UTC of its fixed-offset [timezone], in microseconds.
    [datetime.now()] yields naive values ([utcoffset = None]);
    [fromisoformat] yields naive values or values with a fixed offset. *)
Record datetime : Type := mk_datetime {
  year : Z;
  month : Z;
  day : Z;
  hour : Z;
  minute : Z;
  second : Z;
  microsecond : Z;
  utcoffset : option Z
}.

Definition is_leap (y : Z) : bool :=
  (y mod 4 =? 0) && (negb (y mod 100 =? 0) || (y mod 400 =? 0)).

Definition days_in_month (y m : Z) : Z :=
  if m =? 2 then (if is_leap y then 29 else 28)
  else if (m =? 4) || (m =? 6) || (m =? 9) || (m =? 11) then 30
  else 31.

Definition day_us : Z := 86400000000.

(** The range checks of the [datetime] and [timezone] constructors; every
    [datetime] object that exists at run time satisfies them. *)
Definition datetime_ok (t : datetime) : bool :=
  (1 <=? year t) && (year t <=? 9999) &&
  (1 <=? month t) && (month t <=? 12) &&
  (1 <=? day t) && (day t <=? days_in_month (year t) (month t)) &&
  (0 <=? hour t) && (hour t <? 24) &&
  (0 <=? minute t) && (minute t <? 60) &&
  (0 <=? second t) && (second t <? 60) &&
  (0 <=? microsecond t) && (microsecond t <? 1000000) &&
  match utcoffset t with
  | None => true
  | Some o => (- day_us <? o) && (o <? day_us)
  end.

(** *** Formatting *)

Definition digit_char (d : Z) : ascii := ascii_of_nat (Z.to_nat (48 + d)).

(** The [w] low decimal digits of [n], most significant first.  For the
    in-range fields of a [datetime] this is what ["%0wd" % n] prints. *)
Fixpoint zpad (w : nat) (n : Z) : list ascii :=
  match w with
  | O => []
  | S w' => zpad w' (n / 10) ++ [digit_char (n mod 10)]
  end.

(** The [+HH:MM[:SS[.ffffff]]] suffix of an aware value. *)
Definition format_offset (o : Z) : list ascii :=
  let sign := if o <? 0 then "-"%char else "+"%char in
  let a := Z.abs o in
  let hh := a / 3600000000 in
  let mm := (a / 60000000) mod 60 in
  let ss := (a / 1000000) mod 60 in
  let us := a mod 1000000 in
  sign :: zpad 2 hh ++ ":"%char :: zpad 2 mm ++
    (if (ss =? 0) && (us =? 0) then []
     else ":"%char :: zpad 2 ss ++
       (if us =? 0 then [] else "."%char :: zpad 6 us)).

(** [t.isoformat()]: [YYYY-MM-DDTHH:MM:SS], then [.ffffff] when the
    microsecond is not zero, then the UTC offset of an aware value. *)
Definition isoformat_chars (t : datetime) : list ascii :=
  zpad 4 (year t) ++ "-"%char :: zpad 2 (month t) ++ "-"%char ::
  zpad 2 (day t) ++ "T"%char ::
  zpad 2 (hour t) ++ ":"%char :: zpad 2 (minute t) ++ ":"%char ::
  zpad 2 (second t) ++
  (if microsecond t =? 0 then [] else "."%char :: zpad 6 (microsecond t)) ++
  match utcoffset t with
  | None => []
  | Some o => format_offset o
  end.

Definition isoformat (t : datetime) : string :=
  string_of_list_ascii (isoformat_chars t).

(** [t.strftime("%m-%d %H:%M")] *)
Definition strftime_md_HM (t : datetime) : string :=
  string_of_list_ascii
    (zpad 2 (month t) ++ "-"%char :: zpad 2 (day t) ++ " "%char ::
     zpad 2 (hour t) ++ ":"%char :: zpad 2 (minute t)).

(** *** Parsing *)

Definition digit_val (c : ascii) : option Z :=
  let n := Z.of_nat (nat_of_ascii c) in
  if (48 <=? n) && (n <=? 57) then Some (n - 48) else None.

(** Reads exactly [n] decimal digits. *)
Fixpoint take_digits (n : nat) (acc : Z) (cs : list ascii)
  : option (Z * list ascii) :=
  match n with
  | O => Some (acc, cs)
  | S n' =>
      match cs with
      | c :: r =>
          match digit_val c with
          | Some d => take_digits n' (10 * acc + d) r
          | None => None
          end
      | [] => None
      end
  end.

(** Reads the character [ch]. *)
Definition expect (ch : ascii) (cs : list ascii) : option (list ascii) :=
  match cs with
  | c :: r => if Ascii.eqb c ch then Some r else None
  | [] => None
  end.

Definition starts_with (ch : ascii) (cs : list ascii) : bool :=
  match cs with
  | c :: _ => Ascii.eqb c ch
  | [] => false
  end.

Definition NUL : ascii := "000"%char.

(** The byte at index [i], the terminating NUL past the end. *)
Definition byte_at (s : list ascii) (i : nat) : ascii := nth i s NUL.

Definition is_digit (c : ascii) : bool :=
  match digit_val c with
  | Some _ => true
  | None => false
  end.

(** The number of digits that [s] starts with. *)
Fixpoint digit_run (s : list ascii) : nat :=
  match s with
  | c :: r => if is_digit c then S (digit_run r) else O
  | [] => O
  end.

(** Where the date ends: the formats [YYYY-MM-DD], [YYYYMMDD],
    [YYYY-Www], [YYYYWww], [YYYY-Www-D] and [YYYYWwwD] are told apart by
    the bytes at 4 and 5 and by the length. *)
Definition find_separator (s : list ascii) : option nat :=
  let n := length s in
  if (n =? 7)%nat then Some 7%nat
  else if Ascii.eqb (byte_at s 4) "-" then
    if Ascii.eqb (byte_at s 5) "W" then
      if (n <? 8)%nat then None
      else if (8 <? n)%nat && Ascii.eqb (byte_at s 8) "-" then
        if (n =? 9)%nat then None
        else if (10 <? n)%nat && is_digit (byte_at s 10) then Some 8%nat
        else Some 10%nat
      else Some 8%nat
    else Some 10%nat
  else if Ascii.eqb (byte_at s 4) "W" then
    let idx := (7 + digit_run (drop 7 s))%nat in
    if (idx <? 9)%nat then Some idx
    else if Nat.even idx then Some 7%nat else Some 8%nat
  else Some 8%nat.

(** *** Week dates *)

Definition days_before_year (y : Z) : Z :=
  let y1 := y - 1 in y1 * 365 + y1 / 4 - y1 / 100 + y1 / 400.

Definition days_before_month (y m : Z) : Z :=
  nth (Z.to_nat m) [0; 0; 31; 59; 90; 120; 151; 181; 212; 243; 273; 304; 334] 0
  + (if (2 <? m) && is_leap y then 1 else 0).

Definition ymd_to_ord (y m d : Z) : Z :=
  days_before_year y + days_before_month y m + d.

(** Monday is 0. *)
Definition weekday (y m d : Z) : Z := (ymd_to_ord y m d + 6) mod 7.

(** The ordinal of the Monday that starts the ISO week 1 of the year. *)
Definition iso_week1_monday (y : Z) : Z :=
  let first_day := ymd_to_ord y 1 1 in
  let first_weekday := (first_day + 6) mod 7 in
  let week1_monday := first_day - first_weekday in
  if 3 <? first_weekday then week1_monday + 7 else week1_monday.

(** The date of a positive ordinal, 1 being 0001-01-01. *)
Definition ord_to_ymd (ordinal : Z) : Z * Z * Z :=
  let n := ordinal - 1 in
  let n400 := n / 146097 in
  let n := n mod 146097 in
  let n100 := n / 36524 in
  let n := n mod 36524 in
  let n4 := n / 1461 in
  let n := n mod 1461 in
  let n1 := n / 365 in
  let n := n mod 365 in
  let y := n400 * 400 + 1 + n100 * 100 + n4 * 4 + n1 in
  if (n1 =? 4) || (n100 =? 4) then (y - 1, 12, 31)
  else
    let m := (n + 50) / 32 in
    let preceding := days_before_month y m in
    if n <? preceding
    then (y, m - 1, n - (preceding - days_in_month y (m - 1)) + 1)
    else (y, m, n - preceding + 1).

(** The date of the day [d] of the ISO week [wk] of the year [y].  A week
    date of the year 0000 lies before 0001-01-01 and is rejected. *)
Definition iso_to_ymd (y wk d : Z) : option (Z * Z * Z) :=
  if y <? 1 then None
  else if (wk <=? 0) || (54 <=? wk) then None
  else if (wk =? 53) &&
          negb ((weekday y 1 1 =? 3) || ((weekday y 1 1 =? 2) && is_leap y))
  then None
  else if (d <=? 0) || (8 <=? d) then None
  else Some (ord_to_ymd (iso_week1_monday y + (wk - 1) * 7 + d - 1)).

(** The date, read from the start of the string; [sep] is where it ends. *)
Definition parse_date (s : list ascii) (sep : nat) : option (Z * Z * Z) :=
  match take_digits 4 0 s with
  | None => None
  | Some (y, r1) =>
      let uses_sep := starts_with "-" r1 in
      let r2 := if uses_sep then tl r1 else r1 in
      let dash r := if uses_sep then expect "-" r else Some r in
      if starts_with "W" r2 then
        match take_digits 2 0 (tl r2) with
        | None => None
        | Some (wk, r3) =>
            if ((if uses_sep then 8 else 7) <? sep)%nat then
              match dash r3 with
              | None => None
              | Some r4 =>
                  match take_digits 1 0 r4 with
                  | None => None
                  | Some (d, _) => iso_to_ymd y wk d
                  end
              end
            else iso_to_ymd y wk 1
        end
      else
        match take_digits 2 0 r2 with
        | None => None
        | Some (m, r3) =>
            match dash r3 with
            | None => None
            | Some r4 =>
                match take_digits 2 0 r4 with
                | None => None
                | Some (d, _) => Some (y, m, d)
                end
            end
        end
  end.

(** *** Times *)

(** The fraction of a second, from its first digit on: up to six digits
    count, further digits are skipped.  The flag tells whether the string
    ends there ([nxt] is the byte after the part being read). *)
Definition parse_fraction (rest : list ascii) (nxt : ascii)
  : option (Z * bool) :=
  let k := Nat.min (length rest) 6 in
  match take_digits k 0 rest with
  | None => None
  | Some (v, tail) =>
      let c := hd nxt (drop (digit_run tail) tail) in
      Some (v * 10 ^ Z.of_nat (6 - k), Ascii.eqb c NUL)
  end.

(** What follows a two-digit component. *)
Inductive step : Type :=
| Done (clean : bool)          (** the part ends here *)
| Next (rest : list ascii)     (** another component follows *)
| Frac (rest : list ascii)     (** the fraction follows *)
| Bad.

Definition hms_step (has_sep : bool) (rest : list ascii) (nxt : ascii)
  : step :=
  match rest with
  | [] => Done (Ascii.eqb nxt NUL)
  | [c] => Done (Ascii.eqb c NUL)
  | c :: rest' =>
      if has_sep && Ascii.eqb c ":" then Next rest'
      else if Ascii.eqb c "." || Ascii.eqb c "," then Frac rest'
      else if negb has_sep then Next rest
      else Bad
  end.

(** [HH[:MM[:SS[.f+]]]] or [HH[MM[SS[.f+]]]]: hour, minute, second,
    microsecond, and whether the string ends with the part. *)
Definition parse_hh_mm_ss_ff (seg : list ascii) (nxt : ascii)
  : option (Z * Z * Z * Z * bool) :=
  let fraction hh mm ss r :=
    match parse_fraction r nxt with
    | None => None
    | Some (us, clean) => Some (hh, mm, ss, us, clean)
    end in
  match take_digits 2 0 seg with
  | None => None
  | Some (hh, r1) =>
      let has_sep := starts_with ":" r1 in
      match hms_step has_sep r1 nxt with
      | Bad => None
      | Done clean => Some (hh, 0, 0, 0, clean)
      | Frac r => fraction hh 0 0 r
      | Next r2 =>
          match take_digits 2 0 r2 with
          | None => None
          | Some (mm, r3) =>
              match hms_step has_sep r3 nxt with
              | Bad => None
              | Done clean => Some (hh, mm, 0, 0, clean)
              | Frac r => fraction hh mm 0 r
              | Next r4 =>
                  match take_digits 2 0 r4 with
                  | None => None
                  | Some (ss, r5) =>
                      match hms_step has_sep r5 nxt with
                      | Bad => None
                      | Done clean => Some (hh, mm, ss, 0, clean)
                      | Frac r => fraction hh mm ss r
                      | Next r => fraction hh mm ss r
                      end
                  end
              end
          end
      end
  end.

Definition is_tz_char (c : ascii) : bool :=
  Ascii.eqb c "Z" || Ascii.eqb c "+" || Ascii.eqb c "-".

(** The time proper, and the first of [Z], [+], [-] with what follows. *)
Fixpoint split_tz (t : list ascii)
  : list ascii * option (ascii * list ascii) :=
  match t with
  | [] => ([], None)
  | c :: r =>
      if is_tz_char c then ([], Some (c, r))
      else let (seg, tz) := split_tz r in (c :: seg, tz)
  end.

(** The offset of a time zone: UTC when its whole seconds are 0. *)
Definition tz_offset (sign : ascii) (hh mm ss us : Z) : Z :=
  let secs := hh * 3600 + mm * 60 + ss in
  if secs =? 0 then 0
  else (if Ascii.eqb sign "-" then -1 else 1) * (secs * 1000000 + us).

(** The time and the time zone, after the separator. *)
Definition parse_time (t : list ascii)
  : option (Z * Z * Z * Z * option Z) :=
  match t with
  | [] => None
  | _ =>
      match split_tz t with
      | (seg, None) =>
          match parse_hh_mm_ss_ff seg NUL with
          | Some (hh, mm, ss, us, true) => Some (hh, mm, ss, us, None)
          | _ => None
          end
      | (seg, Some (sign, tzs)) =>
          match parse_hh_mm_ss_ff seg sign with
          | None => None
          | Some (hh, mm, ss, us, _) =>
              if Ascii.eqb sign "Z" then
                if Ascii.eqb (hd NUL tzs) NUL
                then Some (hh, mm, ss, us, Some 0)
                else None
              else
                match parse_hh_mm_ss_ff tzs NUL with
                | Some (zh, zm, zs, zus, true) =>
                    Some (hh, mm, ss, us, Some (tz_offset sign zh zm zs zus))
                | _ => None
                end
          end
      end
  end.

(** The number of bytes of the UTF-8 character that starts with [c]. *)
Definition char_width (c : ascii) : nat :=
  let n := nat_of_ascii c in
  if (n <? 128)%nat then 1%nat
  else if (224 <=? n)%nat && (n <? 240)%nat then 3%nat
  else if (240 <=? n)%nat then 4%nat
  else 2%nat.

(** The strings that [datetime.fromisoformat] reads (Python 3.11): a date
    in one of the six formats, then, if anything follows, one separator
    character and a time with an optional time zone. *)
Definition parse_isoformat (s : list ascii) : option datetime :=
  if (length s <? 7)%nat then None
  else
    match find_separator s with
    | None => None
    | Some sep =>
        match parse_date s sep with
        | None => None
        | Some (y, m, d) =>
            if (sep <? length s)%nat then
              match parse_time (drop (sep + char_width (byte_at s sep)) s) with
              | None => None
              | Some (hh, mm, ss, us, tz) =>
                  Some (mk_datetime y m d hh mm ss us tz)
              end
            else Some (mk_datetime y m d 0 0 0 0 None)
        end
    end.

(** [datetime.fromisoformat(s)]: [ValueError] for a string that cannot be
    read or with a field out of range. *)
Definition fromisoformat_str (s : string) : result datetime :=
  match parse_isoformat (list_ascii_of_string s) with
  | Some t => if datetime_ok t then Ok t else Raise ValueError
  | None => Raise ValueError
  end.

(** [datetime.fromisoformat(v)] on an arbitrary value: [TypeError] when
    the argument is not a string. *)
Definition fromisoformat (v : pyval) : result datetime :=
  match v with
  | PStr s => fromisoformat_str s
  | _ => Raise TypeError
  end.

End Py.

Import Py.

(* ===================================================================== *)
(** * The world outside the process *)
(* ===================================================================== *)

(** A [Path]: its components; [p / name] appends one. *)
Definition path : Type := list string.

Definition path_div (p : path) (name : string) : path := p ++ [name].
Infix "/:" := path_div (at level 40, left associativity).

(** [p.parent] *)
Definition parent (p : path) : path := removelast p.

(** What a path that exists holds, as [stat], [open] and [json.load] see
    it. *)
Inductive file : Type :=
| Unreadable            (** [open] or [read] raises [OSError] *)
| Undecodable           (** not UTF-8 text: [UnicodeDecodeError] *)
| Malformed             (** text that is not JSON, an empty or cut-off file
                            included: [JSONDecodeError] *)
| Json (v : pyval)      (** JSON text, [v] being what [json.load] returns *)
| Hidden.               (** the status of the path cannot be read (its
                            directory cannot be searched): [stat] and [open]
                            raise [PermissionError] *)

Inductive level : Type := DEBUG | INFO | WARNING | ERROR.

(** The messages of the module, by what they report.  [AddedDiary] carries
    the preview [content[:50]]. *)
Inductive message : Type :=
| DataDirFailed (e : exn)
| Loaded (n : nat)
| LoadFailed (e : exn)
| SaveFailed (e : exn)
| AddedDiary (preview : string)
| Cleared.

Record World : Type := mk_World {
  files : gmap path file;      (** the paths that exist, and what they hold *)
  readonly : gset path;        (** paths that cannot be created or opened for
                                   writing *)
  failing : gset path;         (** paths that open for writing but on which
                                   the write fails (no space left) *)
  log : list (level * message) (** what the log sink has received *)
}.

Definition is_hidden (f : option file) : bool :=
  match f with
  | Some Hidden => true
  | _ => false
  end.

(** The paths the process may not create or write: the read-only ones
    and those whose status cannot even be read. *)
Definition denied (w : World) : propset path :=
  {[ p | p ∈ readonly w \/ is_hidden (files w !! p) = true ]}.

(** The decision of [p ∈ denied w]. *)
Definition blocked (w : World) (p : path) : bool :=
  bool_decide (p ∈ readonly w) || is_hidden (files w !! p).

(** The world with [f] at the path [p]. *)
Definition set_file (p : path) (f : file) (w : World) : World :=
  mk_World (<[p := f]> (files w)) (readonly w) (failing w) (log w).

(** The host framework: [StarTools.get_data_dir] and
    [get_astrbot_data_path]. *)
Record Host : Type := mk_Host {
  get_data_dir : string -> result path;
  get_astrbot_data_path : path
}.

(* ===================================================================== *)
(** * Statements: state and exceptions *)
(* ===================================================================== *)

(** A statement runs in a state, returns or raises, and leaves a state:
    what it did before raising stays done. *)
Definition M (S A : Type) : Type := S -> result A * S.

Definition ret {S A} (a : A) : M S A := fun s => (Ok a, s).

Definition raise {S A} (e : exn) : M S A := fun s => (Raise e, s).

Definition mbind {S A B} (m : M S A) (k : A -> M S B) : M S B :=
  fun s =>
    match m s with
    | (Ok a, s') => k a s'
    | (Raise e, s') => (Raise e, s')
    end.

Notation "'let*' x := m 'in' k" := (mbind m (fun x => k))
  (at level 10, x name, m at level 100, k at level 200, only parsing).
Notation "m ;>  k" := (mbind m (fun _ => k))
  (at level 100, k at level 200, right associativity, only parsing).

(** [try: body except Exception as e: handler] *)
Definition try_catch {S A} (body : M S A) (handler : exn -> M S A) : M S A :=
  fun s =>
    match body s with
    | (Ok a, s') => (Ok a, s')
    | (Raise e, s') => handler e s'
    end.

Definition lift {S A} (r : result A) : M S A := fun s => (r, s).

Definition gets {S A} (f : S -> A) : M S A := fun s => (Ok (f s), s).

Definition modify {S} (f : S -> S) : M S unit := fun s => (Ok tt, f s).

(** ** Statements on the world *)

Definition logger (l : level) (m : message) : M World unit :=
  modify (fun w =>
    mk_World (files w) (readonly w) (failing w) (log w ++ [(l, m)])).

(** [p.exists()]: whether the path is there.  [Path.exists] passes on
    the [PermissionError] of [stat]. *)
Definition path_exists (p : path) : M World bool :=
  let* f := gets (fun w => files w !! p) in
  match f with
  | None => ret false
  | Some Hidden => raise OSError
  | Some _ => ret true
  end.

(** [with open(p, encoding="utf-8") as f: data = json.load(f)] *)
Definition json_load (p : path) : M World pyval :=
  let* f := gets (fun w => files w !! p) in
  match f with
  | None => raise OSError
  | Some Unreadable => raise OSError
  | Some Undecodable => raise UnicodeDecodeError
  | Some Malformed => raise JSONDecodeError
  | Some (Json v) => ret v
  | Some Hidden => raise OSError
  end.

(** [with open(p, "w", encoding="utf-8") as f: json.dump(data, f, ...)]:
    opening a denied path raises [OSError] and leaves the file as it was;
    otherwise [open] empties the file at once, and when the encoder or a
    write then raises, the file stays cut off. *)
Definition json_dump (data : pyval) (p : path) : M World unit :=
  let* no := gets (fun w => blocked w p) in
  if (no : bool) then raise OSError
  else
    modify (set_file p Malformed) ;>
    match encode_error data with
    | Some e => raise e
    | None =>
        let* bad := gets (fun w => bool_decide (p ∈ failing w)) in
        if (bad : bool) then raise OSError
        else modify (set_file p (Json data))
    end.

(** [os.makedirs(p, exist_ok=True)] *)
Definition os_makedirs (p : path) : M World unit :=
  let* no := gets (fun w => blocked w p) in
  if (no : bool) then raise OSError else ret tt.

(* ===================================================================== *)
(** * [MemoryItem] *)
(* ===================================================================== *)

(** A single diary entry.  The fields are annotated [str], [datetime] and
    [dict]; [from_dict] stores whatever the record holds for [content] and
    [metadata], so these two are arbitrary values. *)
Record MemoryItem : Type := mk_MemoryItem {
  content : pyval;
  timestamp : datetime;
  metadata : pyval
}.

Definition to_dict (self : MemoryItem) : dict :=
  [ ("memory_type", PStr "diary");
    ("content", content self);
    ("timestamp", PStr (isoformat (timestamp self)));
    ("metadata", metadata self) ].

Definition from_dict (data : dict) : result MemoryItem :=
  bind (getitem data "content") (fun c =>
  bind (getitem data "timestamp") (fun ts =>
  bind (fromisoformat ts) (fun t =>
  Ok (mk_MemoryItem c t (dict_get data "metadata" (PDict [])))))).

(* ===================================================================== *)
(** * [ForumMemory] *)
(* ===================================================================== *)

Record ForumMemory : Type := mk_ForumMemory {
  _max_items : Z;
  _memories : list MemoryItem;
  _storage_path : path
}.

(** A method runs on the object and the world. *)
Definition St : Type := (ForumMemory * World)%type.

Definition self_gets {A} (f : ForumMemory -> A) : M St A :=
  gets (fun s => f (fst s)).

(** [self._memories = ms] *)
Definition set_memories (ms : list MemoryItem) : M St unit :=
  modify (fun s =>
    (mk_ForumMemory (_max_items (fst s)) ms (_storage_path (fst s)), snd s)).

(** A statement on the world, inside a method. *)
Definition io {A} (m : M World A) : M St A :=
  fun s => let (r, w') := m (snd s) in (r, (fst s, w')).

(** A method call on the object [obj]: the object afterwards. *)
Definition call (obj : ForumMemory) (m : M St unit) : M World ForumMemory :=
  fun w => let '(r, (obj', w')) := m (obj, w) in
           (bind r (fun _ => Ok obj'), w').

(** [d.get("memory_type") == "diary"] *)
Definition is_diary (d : pyval) : result bool :=
  bind (method_get d "memory_type") (fun tag => Ok (eq_str tag "diary")).

(** [MemoryItem.from_dict(d)] on an arbitrary value: subscripting a value
    that is not a dict with a string raises [TypeError]. *)
Definition from_dict_value (d : pyval) : result MemoryItem :=
  match d with
  | PDict data => from_dict data
  | _ => Raise TypeError
  end.

Definition _load : M St unit :=
  let* p := self_gets _storage_path in
  let* there := io (path_exists p) in
  if negb there then ret tt
  else
    try_catch
      (let* data := io (json_load p) in
       let* records := lift (iterate data) in
       let* ms := lift (comprehension is_diary from_dict_value records) in
       set_memories ms ;>
       io (logger DEBUG (Loaded (length ms))))
      (fun e =>
         io (logger ERROR (LoadFailed e)) ;>
         set_memories []).

Definition _save : M St unit :=
  try_catch
    (let* ms := self_gets _memories in
     let data := map (fun m => PDict (to_dict m)) ms in
     let* p := self_gets _storage_path in
     io (json_dump (PList data) p))
    (fun e => io (logger ERROR (SaveFailed e))).

Definition __init__ (host : Host) (max_items : Z) (storage_dir : option path)
  : M World ForumMemory :=
  let* storage_path :=
    match storage_dir with
    | Some dir => ret (dir /: "forum_memory.json")
    | None =>
        try_catch
          (let* data_dir := lift (get_data_dir host "astrbot-plugin-astrbook") in
           ret (data_dir /: "forum_memory.json"))
          (fun e =>
             logger WARNING (DataDirFailed e) ;>
             ret (get_astrbot_data_path host /: "plugin_data"
                    /: "astrbot-plugin-astrbook" /: "forum_memory.json"))
    end in
  os_makedirs (parent storage_path) ;>
  call (mk_ForumMemory max_items [] storage_path) _load.

(** [metadata or {}] *)
Definition or_empty (metadata : option dict) : dict :=
  match metadata with
  | Some (kv :: d) => kv :: d
  | _ => []
  end.

(** [add_diary(content, metadata)]; [now] is what [datetime.now()] returns
    when the default timestamp of the new item is taken. *)
Definition add_diary (content : string) (metadata : option dict)
    (now : datetime) : M St unit :=
  let item := mk_MemoryItem (PStr content) now (PDict (or_empty metadata)) in
  let* ms := self_gets _memories in
  set_memories (ms ++ [item]) ;>
  let* ms := self_gets _memories in
  let* max_items := self_gets _max_items in
  (if Z.of_nat (length ms) >? max_items
   then set_memories (slice_from (- max_items) ms)
   else ret tt) ;>
  _save ;>
  io (logger DEBUG (AddedDiary (str_prefix 50 content))).

(** [if limit:] for [limit: int | None] *)
Definition truthy (limit : option Z) : bool :=
  match limit with
  | None => false
  | Some n => negb (n =? 0)
  end.

Definition get_diaries (limit : option Z) : M St (list MemoryItem) :=
  let* ms := self_gets _memories in
  let items := rev ms in
  let items :=
    if truthy limit then slice_to (default 0 limit) items else items in
  ret items.

Definition newline : string := String "010"%char EmptyString.

Definition NO_DIARY : string := "è¿˜æ²¡æœ‰å†™è¿‡è®ºå›æ—¥è®°ã€‚".

Definition HEADER : string := "ðŸ“” æˆ‘åœ¨ AstrBook è®ºå›çš„æ—¥è®°ï¼š".

Definition LINE_PREFIX : string := "  ðŸ“ ".

Definition DEFAULT_LIMIT : Z := 10.

Section Summary.

(** [str(v)] for the values that are not strings, as the f-string
    formats a [content] that a backing file gave another type. *)
Variable str_other : pyval -> string.

Definition format_value (v : pyval) : string :=
  match v with
  | PStr s => s
  | _ => str_other v
  end.

Definition summary_line (item : MemoryItem) : string :=
  let time_str := strftime_md_HM (timestamp item) in
  LINE_PREFIX +:+ "[" +:+ time_str +:+ "] " +:+ format_value (content item).

(** [get_summary(limit)]; the default of [limit] is [DEFAULT_LIMIT]. *)
Definition get_summary (limit : Z) : M St string :=
  let* items := get_diaries (Some limit) in
  match items with
  | [] => ret NO_DIARY
  | _ =>
      let lines := [HEADER] ++ map summary_line items in
      ret (join newline lines)
  end.

End Summary.

(** [self._memories.clear()] empties the list in place; the list object is
    never handed out ([get_diaries] returns a reversed copy), so this is the
    assignment of the empty list. *)
Definition clear : M St unit :=
  set_memories [] ;>
  _save ;>
  io (logger INFO Cleared).

Definition __len__ : M St nat :=
  let* ms := self_gets _memories in
  ret (length ms).

(* ===================================================================== *)
(** * Vocabulary of the properties *)
(* ===================================================================== *)

(** The entry that [add_diary(content, metadata)] creates at time [now]. *)
Definition appended_entry (content : string) (metadata : option dict)
    (now : datetime) : MemoryItem :=
  mk_MemoryItem (PStr content) now (PDict (or_empty metadata)).

(** One call of [add_diary]: its arguments and the clock reading. *)
Definition request : Type := (string * option dict * datetime)%type.

Definition entry_of (r : request) : MemoryItem :=
  let '(content, metadata, now) := r in appended_entry content metadata now.

(** A sequence of [add_diary] calls, oldest first. *)
Fixpoint add_diaries (rs : list request) : M St unit :=
  match rs with
  | [] => ret tt
  | (content, metadata, now) :: rs' =>
      add_diary content metadata now ;> add_diaries rs'
  end.

(** The last [n] elements of a list (all of it when it is shorter). *)
Definition newest {A} (n : nat) (l : list A) : list A :=
  drop (length l - n) l.

(** The trimming step of [add_diary], on the list alone. *)
Definition trim (max_items : Z) (ms : list MemoryItem) : list MemoryItem :=
  if Z.of_nat (length ms) >? max_items then slice_from (- max_items) ms
  else ms.

Definition with_memories (obj : ForumMemory) (ms : list MemoryItem)
  : ForumMemory :=
  mk_ForumMemory (_max_items obj) ms (_storage_path obj).

Definition logged (w : World) (l : level) (m : message) : World :=
  mk_World (files w) (readonly w) (failing w) (log w ++ [(l, m)]).

(** The records that [_save] dumps. *)
Definition dumped (obj : ForumMemory) : pyval :=
  PList (map (fun m => PDict (to_dict m)) (_memories obj)).

(** The world after [_save] on the object [obj]. *)
Definition saved (obj : ForumMemory) (w : World) : World :=
  let p := _storage_path obj in
  if blocked w p then logged w ERROR (SaveFailed OSError)
  else
    match encode_error (dumped obj) with
    | Some e => logged (set_file p Malformed w) ERROR (SaveFailed e)
    | None =>
        if bool_decide (p ∈ failing w)
        then logged (set_file p Malformed w) ERROR (SaveFailed OSError)
        else set_file p (Json (dumped obj)) w
    end.

(** The capacity bound of the journal. *)
Definition within_capacity (obj : ForumMemory) : Prop :=
  Z.of_nat (length (_memories obj)) <= _max_items obj.

(** The failures of [from_dict] that the specification calls a malformed
    entry. *)
Definition MalformedEntry (e : exn) : Prop :=
  e = KeyError "content" \/ e = KeyError "timestamp" \/
  e = ValueError \/ e = TypeError.

(** The discriminant tag of a stored record. *)
Definition has_diary_tag (d : pyval) : bool :=
  match d with
  | PDict data => eq_str (dict_get data "memory_type" PNone) "diary"
  | _ => false
  end.


(** What the body of the [try] statement of [_load] computes from the
    file. *)
Definition read_entries (f : file) : result (list MemoryItem) :=
  match f with
  | Unreadable => Raise OSError
  | Undecodable => Raise UnicodeDecodeError
  | Malformed => Raise JSONDecodeError
  | Json v =>
      bind (iterate v) (fun records =>
        comprehension is_diary from_dict_value records)
  | Hidden => Raise OSError
  end.

(** The storage path that [__init__] determines, and the world once it
    has (a failure of the host is logged). *)
Definition resolved (host : Host) (storage_dir : option path) (w : World)
  : path * World :=
  match storage_dir with
  | Some dir => (dir /: "forum_memory.json", w)
  | None =>
      match get_data_dir host "astrbot-plugin-astrbook" with
      | Ok data_dir => (data_dir /: "forum_memory.json", w)
      | Raise e =>
          (get_astrbot_data_path host /: "plugin_data"
             /: "astrbot-plugin-astrbook" /: "forum_memory.json",
           logged w WARNING (DataDirFailed e))
      end
  end.

(** The cap that [get_diaries] applies for a limit that is absent or not
    negative. *)
Definition capped {A} (limit : option Z) (items : list A) : list A :=
  match limit with
  | None => items
  | Some n => if n =? 0 then items else take (Z.to_nat n) items
  end.

(** ** Reading back what [isoformat] prints *)

(** A reader of the strings that [isoformat] prints which, unlike
    [fromisoformat], keeps an offset below one second as it is.  It serves
    to show that [isoformat] loses nothing. *)

(** [.fff] or [.ffffff] after the seconds, if a dot follows. *)
Definition exact_fraction (cs : list ascii) : option (Z * list ascii) :=
  match expect "."%char cs with
  | None => Some (0, cs)
  | Some r =>
      match take_digits 6 0 r with
      | Some (us, r') => Some (us, r')
      | None =>
          match take_digits 3 0 r with
          | Some (ms, r') => Some (ms * 1000, r')
          | None => None
          end
      end
  end.

(** [HH[:MM[:SS[.fff[fff]]]]]: hour, minute, second, microsecond and the
    unread rest. *)
Definition exact_hh_mm_ss_ff (cs : list ascii)
  : option (Z * Z * Z * Z * list ascii) :=
  match take_digits 2 0 cs with
  | None => None
  | Some (hh, r1) =>
      match expect ":"%char r1 with
      | None => Some (hh, 0, 0, 0, r1)
      | Some r2 =>
          match take_digits 2 0 r2 with
          | None => None
          | Some (mm, r3) =>
              match expect ":"%char r3 with
              | None => Some (hh, mm, 0, 0, r3)
              | Some r4 =>
                  match take_digits 2 0 r4 with
                  | None => None
                  | Some (ss, r5) =>
                      match exact_fraction r5 with
                      | None => None
                      | Some (us, r6) => Some (hh, mm, ss, us, r6)
                      end
                  end
              end
          end
      end
  end.

(** [HH:MM[:SS[.ffffff]]] after the sign of a UTC offset, up to the end of
    the string: the offset in microseconds, without its sign. *)
Definition exact_offset_fields (cs : list ascii) : option Z :=
  match take_digits 2 0 cs with
  | None => None
  | Some (hh, r1) =>
      match expect ":"%char r1 with
      | None => None
      | Some r2 =>
          match take_digits 2 0 r2 with
          | None => None
          | Some (mm, r3) =>
              let hm := hh * 3600000000 + mm * 60000000 in
              match r3 with
              | [] => Some hm
              | _ =>
                  match expect ":"%char r3 with
                  | None => None
                  | Some r4 =>
                      match take_digits 2 0 r4 with
                      | None => None
                      | Some (ss, r5) =>
                          let hms := hm + ss * 1000000 in
                          match r5 with
                          | [] => Some hms
                          | _ =>
                              match expect "."%char r5 with
                              | None => None
                              | Some r6 =>
                                  match take_digits 6 0 r6 with
                                  | Some (us, []) => Some (hms + us)
                                  | _ => None
                                  end
                              end
                          end
                      end
                  end
              end
          end
      end
  end.

(** The optional [+HH:MM[:SS[.ffffff]]] that ends the string. *)
Definition exact_offset (cs : list ascii) : option (option Z) :=
  match cs with
  | [] => Some None
  | c :: r =>
      if Ascii.eqb c "+"%char then
        option_map Some (exact_offset_fields r)
      else if Ascii.eqb c "-"%char then
        option_map (fun o => Some (- o)) (exact_offset_fields r)
      else None
  end.

(** Reads [YYYY-MM-DD[*HH[:MM[:SS[.fff[fff]]]][+HH:MM[:SS[.ffffff]]]]],
    where [*] is any single byte, keeping every digit of the offset. *)
Definition read_isoformat (cs : list ascii) : option datetime :=
  match take_digits 4 0 cs with
  | None => None
  | Some (y, r1) =>
  match expect "-"%char r1 with
  | None => None
  | Some r2 =>
  match take_digits 2 0 r2 with
  | None => None
  | Some (m, r3) =>
  match expect "-"%char r3 with
  | None => None
  | Some r4 =>
  match take_digits 2 0 r4 with
  | None => None
  | Some (d, r5) =>
      match r5 with
      | [] => Some (mk_datetime y m d 0 0 0 0 None)
      | _separator :: r6 =>
          match exact_hh_mm_ss_ff r6 with
          | None => None
          | Some (hh, mm, ss, us, r7) =>
              match exact_offset r7 with
              | None => None
              | Some tz => Some (mk_datetime y m d hh mm ss us tz)
              end
          end
      end
  end end end end end.

(** The date, the time and the time zone that [isoformat] prints. *)
Definition date_chars (t : datetime) : list ascii :=
  zpad 4 (year t) ++ "-"%char :: zpad 2 (month t) ++ "-"%char ::
  zpad 2 (day t).

Definition clock_chars (t : datetime) : list ascii :=
  zpad 2 (hour t) ++ ":"%char :: zpad 2 (minute t) ++ ":"%char ::
  zpad 2 (second t) ++
  (if microsecond t =? 0 then [] else "."%char :: zpad 6 (microsecond t)).

Definition zone_chars (t : datetime) : list ascii :=
  match utcoffset t with
  | None => []
  | Some o => format_offset o
  end.

(** The offsets that [fromisoformat] gives back as [isoformat] printed
    them: none, zero, or at least one second either way. *)
Definition offset_survives (t : datetime) : bool :=
  match utcoffset t with
  | None => true
  | Some o => (o =? 0) || (1000000 <=? Z.abs o)
  end.

(** An entry that a save and a load give back as it is. *)
Definition stable_entry (m : MemoryItem) : Prop :=
  datetime_ok (timestamp m) = true /\ offset_survives (timestamp m) = true.

(** ** Sample data *)

Definition sample_dir : path := ["data"; "plugin_data"; "astrbot-plugin-astrbook"].

Definition sample_path : path := sample_dir /: "forum_memory.json".

Definition sample_host : Host := mk_Host (fun _ => Ok sample_dir) ["data"].

Definition empty_world : World := mk_World ∅ ∅ ∅ [].

(** A world whose only file is the backing file, holding [f]. *)
Definition world_with (f : file) : World :=
  mk_World {[ sample_path := f ]} ∅ ∅ [].

Definition noon : datetime := mk_datetime 2025 1 15 12 0 0 0 None.

(** A stored record of the given kind. *)
Definition stored (kind content : string) : pyval :=
  PDict [ ("memory_type", PStr kind);
          ("content", PStr content);
          ("timestamp", PStr "2025-01-15T12:00:00");
          ("metadata", PDict []) ].

Definition entry (content : string) : MemoryItem :=
  appended_entry content None noon.

Definition sample_journal (max_items : Z) (ms : list MemoryItem)
  : ForumMemory :=
  mk_ForumMemory max_items ms sample_path.

(** ** Runs of the mutating methods *)

(** An entry whose timestamp satisfies the range checks of [datetime], as
    every timestamp made by [datetime.now()] or [fromisoformat] does. *)
Definition valid_entry (m : MemoryItem) : Prop :=
  datetime_ok (timestamp m) = true.

(** A call of one of the two mutating methods. *)
Inductive operation : Type :=
| Add (r : request)
| Clear.

Definition perform (o : operation) : M St unit :=
  match o with
  | Add (content, metadata, now) => add_diary content metadata now
  | Clear => clear
  end.

Fixpoint perform_all (os : list operation) : M St unit :=
  match os with
  | [] => ret tt
  | o :: os' => perform o ;> perform_all os'
  end.

(* ===================================================================== *)
(** * Lemmas: decimal fields and the ISO format *)
(* ===================================================================== *)

Section Isoformat.

Lemma digit_val_digit_char (d : Z) :
  0 <= d < 10 -> digit_val (digit_char d) = Some d.
Proof.
  intros Hd.
  assert (d = 0 \/ d = 1 \/ d = 2 \/ d = 3 \/ d = 4 \/
          d = 5 \/ d = 6 \/ d = 7 \/ d = 8 \/ d = 9) as Hcases by lia.
  repeat (destruct Hcases as [-> | Hcases]; [reflexivity |]).
  subst d. reflexivity.
Qed.

(** Reading one more digit, seen from the end of the field. *)
Lemma take_digits_last (n : nat) : forall acc cs,
  take_digits (S n) acc cs =
  match take_digits n acc cs with
  | Some (v, c :: r) =>
      match digit_val c with
      | Some d => Some (10 * v + d, r)
      | None => None
      end
  | _ => None
  end.
Proof.
  induction n as [| n IH]; intros acc cs.
  - destruct cs as [| c r]; reflexivity.
  - destruct cs as [| c r]; [reflexivity |].
    change (take_digits (S (S n)) acc (c :: r))
      with (match digit_val c with
            | Some d => take_digits (S n) (10 * acc + d) r
            | None => None
            end).
    change (take_digits (S n) acc (c :: r))
      with (match digit_val c with
            | Some d => take_digits n (10 * acc + d) r
            | None => None
            end).
    destruct (digit_val c) as [d |]; [apply IH | reflexivity].
Qed.

(** Reading back a field of [w] digits. *)
Lemma take_digits_zpad (w : nat) : forall n acc rest,
  take_digits w acc (zpad w n ++ rest) =
  Some (acc * 10 ^ Z.of_nat w + n mod 10 ^ Z.of_nat w, rest).
Proof.
  induction w as [| w IH]; intros n acc rest.
  - simpl. rewrite Z.mod_1_r. do 2 f_equal. lia.
  - rewrite take_digits_last.
    change (zpad (S w) n) with (zpad w (n / 10) ++ [digit_char (n mod 10)]).
    rewrite <- app_assoc. simpl app at 2. rewrite IH.
    rewrite digit_val_digit_char by (apply Z.mod_pos_bound; lia).
    do 2 f_equal.
    rewrite Nat2Z.inj_succ, Z.pow_succ_r by lia.
    rewrite (Z.rem_mul_r n 10 (10 ^ Z.of_nat w)) by lia.
    lia.
Qed.

Lemma take_digits_field (w : nat) (n : Z) (rest : list ascii) :
  0 <= n < 10 ^ Z.of_nat w ->
  take_digits w 0 (zpad w n ++ rest) = Some (n, rest).
Proof.
  intros Hn. rewrite take_digits_zpad, Z.mod_small by lia. reflexivity.
Qed.

End Isoformat.

Section ExactReading.

Local Opaque zpad take_digits.

Lemma offset_fields (a : Z) :
  0 <= a < day_us ->
  let hh := a / 3600000000 in
  let mm := (a / 60000000) mod 60 in
  let ss := (a / 1000000) mod 60 in
  let us := a mod 1000000 in
  0 <= hh < 10 ^ 2 /\ 0 <= mm < 10 ^ 2 /\ 0 <= ss < 10 ^ 2 /\
  0 <= us < 10 ^ 6 /\
  a = hh * 3600000000 + mm * 60000000 + ss * 1000000 + us.
Proof.
  unfold day_us. intros Ha. cbv zeta.
  change (10 ^ 2) with 100. change (10 ^ 6) with 1000000.
  Z.div_mod_to_equations. lia.
Qed.

Lemma exact_offset_fields_format (a : Z) :
  0 <= a < day_us ->
  exact_offset_fields (tl (format_offset a)) = Some a.
Proof.
  intros Ha. destruct (offset_fields a Ha) as (Hh & Hm & Hs & Hu & Hsum).
  unfold format_offset. rewrite Z.abs_eq by lia. cbv zeta in *.
  cbn [tl]. unfold exact_offset_fields.
  rewrite take_digits_field by assumption. cbn [expect Ascii.eqb Bool.eqb].
  rewrite take_digits_field by assumption.
  destruct ((a / 1000000) mod 60 =? 0) eqn:Es;
    destruct (a mod 1000000 =? 0) eqn:Eu; cbn [andb expect Ascii.eqb Bool.eqb].
  - f_equal. lia.
  - rewrite take_digits_field by assumption. 
    cbn [app expect Ascii.eqb Bool.eqb].
    rewrite <- (app_nil_r (zpad 6 _)).
    rewrite take_digits_field by assumption. f_equal. lia.
  - rewrite take_digits_field by assumption. f_equal. lia.
  - rewrite take_digits_field by assumption.
    cbn [app expect Ascii.eqb Bool.eqb].
    rewrite <- (app_nil_r (zpad 6 _)).
    rewrite take_digits_field by assumption. f_equal. lia.
Qed.

Lemma exact_offset_format (o : Z) :
  - day_us < o < day_us ->
  exact_offset (format_offset o) = Some (Some o).
Proof.
  intros Ho.
  assert (Hf : format_offset o =
               (if o <? 0 then "-"%char else "+"%char)
                 :: tl (format_offset (Z.abs o))).
  { unfold format_offset. rewrite (Z.abs_eq (Z.abs o)) by lia. reflexivity. }
  rewrite Hf. unfold exact_offset.
  rewrite exact_offset_fields_format by lia.
  destruct (Z.ltb_spec o 0); cbn; f_equal; f_equal; lia.
Qed.

Lemma exact_fraction_format (us : Z) (rest : list ascii) :
  0 <= us < 1000000 ->
  expect "."%char rest = None ->
  exact_fraction
    ((if us =? 0 then [] else "."%char :: zpad 6 us) ++ rest) =
  Some (us, rest).
Proof.
  intros Hus Hrest. unfold exact_fraction.
  destruct (Z.eqb_spec us 0) as [-> | Hne].
  - cbn [app]. rewrite Hrest. reflexivity.
  - cbn [app expect Ascii.eqb Bool.eqb].
    rewrite take_digits_field by (change (10 ^ Z.of_nat 6) with 1000000; lia).
    reflexivity.
Qed.

Lemma expect_dot_offset (tz : option Z) :
  expect "."%char
    match tz with Some o => format_offset o | None => [] end = None.
Proof.
  destruct tz as [o |]; [| reflexivity].
  unfold format_offset. destruct (o <? 0); reflexivity.
Qed.

Lemma read_isoformat_chars (t : datetime) :
  datetime_ok t = true ->
  read_isoformat (isoformat_chars t) = Some t.
Proof.
  destruct t as [y mo d h mi s us tz]. unfold datetime_ok. cbn [year month day hour minute second microsecond utcoffset].
  intros Hok. repeat (apply andb_prop in Hok as [Hok ?]).
  assert (Hdim : days_in_month y mo <= 31).
  { unfold days_in_month.
    repeat match goal with |- context [if ?b then _ else _] => destruct b end;
      lia. }
  unfold isoformat_chars, read_isoformat.
  cbn [year month day hour minute second microsecond utcoffset].
  rewrite take_digits_field by (change (10 ^ Z.of_nat 4) with 10000; lia).
  cbn [expect Ascii.eqb Bool.eqb].
  rewrite take_digits_field by (change (10 ^ Z.of_nat 2) with 100; lia).
  cbn [expect Ascii.eqb Bool.eqb].
  rewrite take_digits_field by (change (10 ^ Z.of_nat 2) with 100; lia).
  unfold exact_hh_mm_ss_ff.
  rewrite take_digits_field by (change (10 ^ Z.of_nat 2) with 100; lia).
  cbn [expect Ascii.eqb Bool.eqb].
  rewrite take_digits_field by (change (10 ^ Z.of_nat 2) with 100; lia).
  cbn [expect Ascii.eqb Bool.eqb].
  rewrite take_digits_field by (change (10 ^ Z.of_nat 2) with 100; lia).
  rewrite exact_fraction_format by (auto using expect_dot_offset; lia).
  destruct tz as [o |].
  - rewrite exact_offset_format; [reflexivity |].
    apply andb_prop in H as [? ?]. lia.
  - reflexivity.
Qed.

(** [isoformat] loses nothing. *)
Lemma isoformat_injective (t1 t2 : datetime) :
  datetime_ok t1 = true -> datetime_ok t2 = true ->
  isoformat t1 = isoformat t2 -> t1 = t2.
Proof.
  intros H1 H2 Heq. unfold isoformat in Heq.
  apply (f_equal list_ascii_of_string) in Heq.
  rewrite !list_ascii_of_string_of_list_ascii in Heq.
  apply read_isoformat_chars in H1. apply read_isoformat_chars in H2.
  rewrite Heq in H1. congruence.
Qed.

End ExactReading.


(* ===================================================================== *)
(** * Lemmas: [fromisoformat] on what [isoformat] prints *)
(* ===================================================================== *)

Section Fromisoformat.

Local Opaque zpad take_digits.

Lemma length_zpad (w : nat) : forall n, length (zpad w n) = w.
Proof.
  induction w as [| w IH]; intros n; [reflexivity |].
  change (zpad (S w) n) with (zpad w (n / 10) ++ [digit_char (n mod 10)]).
  rewrite length_app, IH. cbn. lia.
Qed.

(** A field starts with a digit. *)
Lemma zpad_head (w : nat) : forall n (r : list ascii),
  exists d r', 0 <= d < 10 /\ zpad (S w) n ++ r = digit_char d :: r'.
Proof.
  induction w as [| w IH]; intros n r.
  - exists (n mod 10), r. split; [apply Z.mod_pos_bound; lia | reflexivity].
  - change (zpad (S (S w)) n)
      with (zpad (S w) (n / 10) ++ [digit_char (n mod 10)]).
    rewrite <- app_assoc. apply IH.
Qed.

Lemma digit_char_plain (d : Z) :
  0 <= d < 10 ->
  is_tz_char (digit_char d) = false /\
  Ascii.eqb (digit_char d) "W" = false /\
  is_digit (digit_char d) = true.
Proof.
  intros Hd.
  assert (d = 0 \/ d = 1 \/ d = 2 \/ d = 3 \/ d = 4 \/
          d = 5 \/ d = 6 \/ d = 7 \/ d = 8 \/ d = 9) as Hcases by lia.
  repeat (destruct Hcases as [-> | Hcases]; [repeat split |]).
  subst d. repeat split.
Qed.

Lemma zpad_no_tz_char (w : nat) : forall n,
  Forall (fun c => is_tz_char c = false) (zpad w n).
Proof.
  induction w as [| w IH]; intros n; [constructor |].
  change (zpad (S w) n) with (zpad w (n / 10) ++ [digit_char (n mod 10)]).
  apply Forall_app. split; [apply IH |].
  constructor; [| constructor].
  apply digit_char_plain, Z.mod_pos_bound. lia.
Qed.

Lemma split_tz_app (l r : list ascii) :
  Forall (fun c => is_tz_char c = false) l ->
  split_tz (l ++ r) = (l ++ fst (split_tz r), snd (split_tz r)).
Proof.
  induction 1 as [| c l Hc _ IH]; cbn [app split_tz].
  - destruct (split_tz r); reflexivity.
  - rewrite Hc, IH. reflexivity.
Qed.

Lemma byte_at_zpad (w : nat) (n : Z) (r : list ascii) (i : nat) :
  byte_at (zpad w n ++ r) (w + i) = byte_at r i.
Proof.
  unfold byte_at. rewrite app_nth2 by (rewrite length_zpad; lia).
  rewrite length_zpad. f_equal. lia.
Qed.

Lemma starts_with_zpad (c : ascii) (w : nat) (n : Z) (r : list ascii) :
  is_digit c = false ->
  starts_with c (zpad (S w) n ++ r) = false.
Proof.
  intros Hc. destruct (zpad_head w n r) as (d & r' & Hd & ->).
  cbn [starts_with]. destruct (Ascii.eqb_spec (digit_char d) c) as [<- | _];
    [| reflexivity].
  apply digit_char_plain in Hd as (_ & _ & Hd). congruence.
Qed.

Lemma isoformat_chars_parts (t : datetime) :
  isoformat_chars t =
  date_chars t ++ "T"%char :: clock_chars t ++ zone_chars t.
Proof.
  unfold isoformat_chars, date_chars, clock_chars, zone_chars.
  repeat (rewrite <- ?app_assoc; cbn [app]). reflexivity.
Qed.

Lemma length_date_chars (t : datetime) : length (date_chars t) = 10%nat.
Proof.
  unfold date_chars.
  repeat (rewrite ?length_app, ?length_zpad; cbn [length]). reflexivity.
Qed.


Lemma find_separator_date (t : datetime) (c : ascii) (r : list ascii) :
  find_separator (date_chars t ++ c :: r) = Some 10%nat.
Proof.
  unfold find_separator.
  rewrite length_app, length_date_chars. cbn [length Nat.add Nat.eqb].
  unfold date_chars. repeat (rewrite <- ?app_assoc; cbn [app]).
  rewrite (byte_at_zpad 4 _ _ 0). cbn [byte_at nth Ascii.eqb Bool.eqb].
  rewrite (byte_at_zpad 4 _ _ 1).
  change (byte_at ("-"%char :: ?l) 1) with (byte_at l 0).
  destruct (zpad_head 1 (month t)
              ("-"%char :: zpad 2 (day t) ++ c :: r)) as (d & r' & Hd & ->).
  cbn [byte_at nth].
  apply digit_char_plain in Hd as (_ & -> & _). reflexivity.
Qed.

Lemma parse_date_date (t : datetime) (r : list ascii) :
  0 <= year t < 10000 -> 0 <= month t < 100 -> 0 <= day t < 100 ->
  parse_date (date_chars t ++ r) 10 = Some (year t, month t, day t).
Proof.
  intros Hy Hm Hd. unfold parse_date, date_chars.
  repeat (rewrite <- ?app_assoc; cbn [app]).
  rewrite take_digits_field by (change (10 ^ Z.of_nat 4) with 10000; lia).
  cbn [starts_with Ascii.eqb Bool.eqb tl].
  rewrite starts_with_zpad by reflexivity.
  rewrite take_digits_field by (change (10 ^ Z.of_nat 2) with 100; lia).
  cbn [expect Ascii.eqb Bool.eqb].
  rewrite take_digits_field by (change (10 ^ Z.of_nat 2) with 100; lia).
  reflexivity.
Qed.

Lemma hms_step_colon (r : list ascii) (nxt : ascii) :
  r <> [] -> hms_step true (":"%char :: r) nxt = Next r.
Proof. destruct r; [congruence | reflexivity]. Qed.

Lemma hms_step_dot (r : list ascii) (nxt : ascii) :
  r <> [] -> hms_step true ("."%char :: r) nxt = Frac r.
Proof. destruct r; [congruence | reflexivity]. Qed.

Lemma zpad_not_nil (w : nat) (n : Z) (r : list ascii) : zpad (S w) n ++ r <> [].
Proof. destruct (zpad_head w n r) as (d & r' & _ & ->). discriminate. Qed.

Lemma parse_fraction_six (us : Z) (nxt : ascii) :
  0 <= us < 1000000 ->
  parse_fraction (zpad 6 us) nxt = Some (us, Ascii.eqb nxt NUL).
Proof.
  intros Hus. unfold parse_fraction. rewrite length_zpad. cbn [Nat.min].
  rewrite <- (app_nil_r (zpad 6 us)).
  rewrite take_digits_field by (change (10 ^ Z.of_nat 6) with 1000000; lia).
  cbn [digit_run drop hd Nat.sub]. do 2 f_equal.
  change (10 ^ Z.of_nat 0) with 1. lia.
Qed.

(** [HH:MM], as in a short offset. *)
Lemma parse_hh_mm (a b : Z) (nxt : ascii) :
  0 <= a < 100 -> 0 <= b < 100 ->
  parse_hh_mm_ss_ff (zpad 2 a ++ ":"%char :: zpad 2 b) nxt =
  Some (a, b, 0, 0, Ascii.eqb nxt NUL).
Proof.
  intros Ha Hb. unfold parse_hh_mm_ss_ff.
  rewrite take_digits_field by (change (10 ^ Z.of_nat 2) with 100; lia).
  cbn [starts_with Ascii.eqb Bool.eqb].
  rewrite <- (app_nil_r (zpad 2 b)).
  rewrite hms_step_colon by apply zpad_not_nil.
  rewrite take_digits_field by (change (10 ^ Z.of_nat 2) with 100; lia).
  reflexivity.
Qed.

(** [HH:MM:SS[.ffffff]] *)
Lemma parse_hh_mm_ss (a b c us : Z) (nxt : ascii) :
  0 <= a < 100 -> 0 <= b < 100 -> 0 <= c < 100 -> 0 <= us < 1000000 ->
  parse_hh_mm_ss_ff
    (zpad 2 a ++ ":"%char :: zpad 2 b ++ ":"%char :: zpad 2 c ++
     (if us =? 0 then [] else "."%char :: zpad 6 us)) nxt =
  Some (a, b, c, us, Ascii.eqb nxt NUL).
Proof.
  intros Ha Hb Hc Hus. unfold parse_hh_mm_ss_ff.
  rewrite take_digits_field by (change (10 ^ Z.of_nat 2) with 100; lia).
  cbn [starts_with Ascii.eqb Bool.eqb].
  rewrite hms_step_colon by apply zpad_not_nil.
  rewrite take_digits_field by (change (10 ^ Z.of_nat 2) with 100; lia).
  rewrite hms_step_colon by apply zpad_not_nil.
  rewrite take_digits_field by (change (10 ^ Z.of_nat 2) with 100; lia).
  destruct (Z.eqb_spec us 0) as [-> | Hne].
  - reflexivity.
  - rewrite <- (app_nil_r (zpad 6 us)).
    rewrite hms_step_dot by apply zpad_not_nil.
    rewrite app_nil_r, parse_fraction_six by assumption. reflexivity.
Qed.


Lemma clock_no_tz_char (t : datetime) :
  Forall (fun c => is_tz_char c = false) (clock_chars t).
Proof.
  unfold clock_chars.
  apply Forall_app; split; [apply zpad_no_tz_char |].
  apply Forall_cons; split; [reflexivity |].
  apply Forall_app; split; [apply zpad_no_tz_char |].
  apply Forall_cons; split; [reflexivity |].
  apply Forall_app; split; [apply zpad_no_tz_char |].
  destruct (microsecond t =? 0); [constructor |].
  apply Forall_cons; split; [reflexivity | apply zpad_no_tz_char].
Qed.

Lemma clock_not_nil (t : datetime) (r : list ascii) : clock_chars t ++ r <> [].
Proof.
  unfold clock_chars. rewrite <- app_assoc. apply zpad_not_nil.
Qed.

Lemma parse_time_clock (t : datetime) (r : list ascii) :
  parse_time (clock_chars t ++ r) =
  match split_tz r with
  | (seg, None) =>
      match parse_hh_mm_ss_ff (clock_chars t ++ seg) NUL with
      | Some (hh, mm, ss, us, true) => Some (hh, mm, ss, us, None)
      | _ => None
      end
  | (seg, Some (sign, tzs)) =>
      match parse_hh_mm_ss_ff (clock_chars t ++ seg) sign with
      | None => None
      | Some (hh, mm, ss, us, _) =>
          if Ascii.eqb sign "Z" then
            if Ascii.eqb (hd NUL tzs) NUL
            then Some (hh, mm, ss, us, Some 0)
            else None
          else
            match parse_hh_mm_ss_ff tzs NUL with
            | Some (zh, zm, zs, zus, true) =>
                Some (hh, mm, ss, us, Some (tz_offset sign zh zm zs zus))
            | _ => None
            end
      end
  end.
Proof.
  unfold parse_time.
  destruct (clock_chars t ++ r) as [| c l] eqn:Hcl;
    [exfalso; exact (clock_not_nil t r Hcl) |].
  rewrite <- Hcl, split_tz_app by apply clock_no_tz_char.
  destruct (split_tz r) as [seg [[sign tzs] |]]; reflexivity.
Qed.

Lemma parse_clock (t : datetime) (nxt : ascii) :
  datetime_ok t = true ->
  parse_hh_mm_ss_ff (clock_chars t) nxt =
  Some (hour t, minute t, second t, microsecond t, Ascii.eqb nxt NUL).
Proof.
  unfold datetime_ok. intros Hok.
  repeat (apply andb_prop in Hok as [Hok ?]).
  apply parse_hh_mm_ss; lia.
Qed.

Lemma parse_zone (o : Z) :
  - day_us < o < day_us ->
  (o =? 0) || (1000000 <=? Z.abs o) = true ->
  exists sign fields zh zm zs zus,
    format_offset o = sign :: fields /\
    is_tz_char sign = true /\ Ascii.eqb sign "Z" = false /\
    parse_hh_mm_ss_ff fields NUL = Some (zh, zm, zs, zus, true) /\
    tz_offset sign zh zm zs zus = o.
Proof.
  intros Ho Hnormal.
  destruct (offset_fields (Z.abs o)) as (Hh & Hm & Hs & Hu & Hsum);
    [unfold day_us in *; lia |].
  cbv zeta in *.
  change (10 ^ 2) with 100 in *. change (10 ^ 6) with 1000000 in *.
  set (a := Z.abs o) in *.
  exists (if o <? 0 then "-"%char else "+"%char), (tl (format_offset o)),
    (a / 3600000000), ((a / 60000000) mod 60), ((a / 1000000) mod 60),
    (a mod 1000000).
  split; [reflexivity |].
  split; [destruct (o <? 0); reflexivity |].
  split; [destruct (o <? 0); reflexivity |].
  split.
  - unfold format_offset. cbn [tl]. fold a.
    destruct (((a / 1000000) mod 60 =? 0) && (a mod 1000000 =? 0)) eqn:E.
    + apply andb_prop in E as [Es Eu]. apply Z.eqb_eq in Es, Eu.
      rewrite app_nil_r, parse_hh_mm, Es, Eu by lia. reflexivity.
    + apply parse_hh_mm_ss; lia.
  - unfold tz_offset.
    destruct (Z.eqb_spec (a / 3600000000 * 3600 + (a / 60000000) mod 60 * 60
                          + (a / 1000000) mod 60) 0) as [Hz | Hz].
    + destruct (Z.eqb_spec o 0) as [-> | Hne]; [reflexivity |].
      cbn [orb] in Hnormal. subst a. lia.
    + subst a. destruct (Z.ltb_spec o 0); cbn [Ascii.eqb Bool.eqb]; lia.
Qed.

(** [datetime.fromisoformat(t.isoformat()) == t], for the offsets that
    survive. *)
Lemma fromisoformat_isoformat (t : datetime) :
  datetime_ok t = true -> offset_survives t = true ->
  fromisoformat_str (isoformat t) = Ok t.
Proof.
  intros Hok Hoff. unfold fromisoformat_str, isoformat.
  rewrite list_ascii_of_string_of_list_ascii.
  assert (Hparse : parse_isoformat (isoformat_chars t) = Some t);
    [| rewrite Hparse, Hok; reflexivity].
  rewrite isoformat_chars_parts. unfold parse_isoformat.
  rewrite length_app, length_date_chars. cbn [length Nat.add Nat.ltb Nat.leb].
  rewrite find_separator_date.
  assert (Hfields : 0 <= year t < 10000 /\ 0 <= month t < 100 /\
                    0 <= day t < 100).
  { unfold datetime_ok in Hok. repeat (apply andb_prop in Hok as [Hok ?]).
    assert (days_in_month (year t) (month t) <= 31).
    { unfold days_in_month.
      repeat match goal with |- context [if ?b then _ else _] => destruct b end;
        lia. }
    lia. }
  destruct Hfields as (Hy & Hm & Hd).
  rewrite parse_date_date by assumption.
  replace (byte_at (date_chars t ++ "T"%char :: clock_chars t ++ zone_chars t) 10)
    with "T"%char
    by (unfold byte_at; rewrite app_nth2, length_date_chars
          by (rewrite length_date_chars; lia); reflexivity).
  change (10 + char_width "T")%nat with (length (date_chars t ++ ["T"%char]))
    || (replace (10 + char_width "T")%nat
          with (length (date_chars t ++ ["T"%char]))
          by (rewrite length_app, length_date_chars; reflexivity)).
  replace (date_chars t ++ "T"%char :: clock_chars t ++ zone_chars t)
    with ((date_chars t ++ ["T"%char]) ++ clock_chars t ++ zone_chars t)
    by (rewrite <- app_assoc; reflexivity).
  rewrite drop_app_length, parse_time_clock.
  unfold zone_chars, offset_survives in *.
  destruct t as [y mo d h mi s us [o |]];
    cbn [utcoffset year month day hour minute second microsecond] in *.
  - assert (Ho : - day_us < o < day_us).
    { unfold datetime_ok in Hok. cbn [utcoffset] in Hok.
      apply andb_prop in Hok as [_ Hok]. apply andb_prop in Hok as [? ?]. lia. }
    destruct (parse_zone o Ho Hoff)
      as (sign & fields & zh & zm & zs & zus & -> & Hsign & HZ & Hz & Htz).
    cbn [split_tz]. rewrite Hsign, app_nil_r, parse_clock by assumption.
    cbn [hour minute second microsecond]. rewrite HZ, Hz, Htz. reflexivity.
  - cbn [split_tz]. rewrite app_nil_r, parse_clock by assumption.
    reflexivity.
Qed.

End Fromisoformat.

Section FromisoformatValues.

Lemma take_digits_nonneg (n : nat) : forall acc cs v r,
  take_digits n acc cs = Some (v, r) -> 0 <= acc -> 0 <= v.
Proof.
  induction n as [| n IH]; intros acc cs v r; cbn [take_digits].
  - intros [= <- _]. auto.
  - destruct cs as [| c cs]; [discriminate |].
    unfold digit_val at 1.
    destruct (_ && _) eqn:Hd; [| discriminate].
    intros H Hacc. apply (IH _ _ _ _ H).
    apply andb_prop in Hd as [? _]. lia.
Qed.

Lemma parse_fraction_nonneg (rest : list ascii) (nxt : ascii) us clean :
  parse_fraction rest nxt = Some (us, clean) -> 0 <= us.
Proof.
  unfold parse_fraction.
  destruct (take_digits _ 0 rest) as [[v tail] |] eqn:Hv; [| discriminate].
  intros [= <- _]. apply take_digits_nonneg in Hv; [| lia].
  apply Z.mul_nonneg_nonneg; [assumption | apply Z.pow_nonneg; lia].
Qed.

Lemma parse_hh_mm_ss_ff_nonneg (seg : list ascii) (nxt : ascii)
    hh mm ss us clean :
  parse_hh_mm_ss_ff seg nxt = Some (hh, mm, ss, us, clean) ->
  0 <= hh /\ 0 <= mm /\ 0 <= ss /\ 0 <= us.
Proof.
  unfold parse_hh_mm_ss_ff. intros H.
  repeat match type of H with
         | context [match ?x with _ => _ end] =>
             let E := fresh "E" in destruct x eqn:E; try discriminate H
         end;
    injection H as <- <- <- <- <-;
    repeat match goal with
           | E : take_digits _ 0 _ = Some (_, _) |- _ =>
               apply take_digits_nonneg in E; [| lia]
           | E : parse_fraction _ _ = Some (_, _) |- _ =>
               apply parse_fraction_nonneg in E
           end;
    repeat split; lia.
Qed.

Lemma tz_offset_survives (sign : ascii) (zh zm zs zus : Z) :
  0 <= zh -> 0 <= zm -> 0 <= zs -> 0 <= zus ->
  let o := tz_offset sign zh zm zs zus in
  (o =? 0) || (1000000 <=? Z.abs o) = true.
Proof.
  intros Hh Hm Hs Hu. cbv zeta. unfold tz_offset.
  destruct (Z.eqb_spec (zh * 3600 + zm * 60 + zs) 0); [reflexivity |].
  apply orb_true_intro. right. apply Z.leb_le.
  destruct (Ascii.eqb sign "-"); lia.
Qed.

Lemma parse_time_offset (t : list ascii) hh mm ss us (o : Z) :
  parse_time t = Some (hh, mm, ss, us, Some o) ->
  (o =? 0) || (1000000 <=? Z.abs o) = true.
Proof.
  unfold parse_time. intros H.
  repeat match type of H with
         | context [match ?x with _ => _ end] =>
             let E := fresh "E" in destruct x eqn:E; try discriminate H
         end;
    injection H as <- <- <- <- <-; try reflexivity.
  match goal with
  | E : parse_hh_mm_ss_ff _ NUL = Some _ |- _ =>
      apply parse_hh_mm_ss_ff_nonneg in E as (? & ? & ? & ?)
  end.
  apply tz_offset_survives; assumption.
Qed.

(** What [fromisoformat] returns is within the ranges of [datetime], with
    an offset that survives [isoformat] and [fromisoformat]. *)
Lemma fromisoformat_str_valid (s : string) (t : datetime) :
  fromisoformat_str s = Ok t ->
  datetime_ok t = true /\ offset_survives t = true.
Proof.
  unfold fromisoformat_str.
  destruct (parse_isoformat _) as [t' |] eqn:Hp; [| discriminate].
  destruct (datetime_ok t') eqn:Hok; [| discriminate].
  intros [= <-]. split; [exact Hok |].
  unfold parse_isoformat in Hp.
  repeat match type of Hp with
         | context [match ?x with _ => _ end] =>
             let E := fresh "E" in destruct x eqn:E; try discriminate Hp
         end;
    injection Hp as <-; unfold offset_survives; cbn [utcoffset];
    try reflexivity.
  match goal with
  | o : option Z |- _ => destruct o as [o |]; [| reflexivity]
  end.
  match goal with
  | E : parse_time _ = Some _ |- _ => exact (parse_time_offset _ _ _ _ _ _ E)
  end.
Qed.

Lemma fromisoformat_raises (v : pyval) (e : exn) :
  fromisoformat v = Raise e -> e = ValueError \/ e = TypeError.
Proof.
  destruct v; cbn [fromisoformat]; try (intros [= <-]; auto).
  unfold fromisoformat_str.
  destruct (parse_isoformat _) as [t |]; [destruct (datetime_ok t) |];
    intros [= <-]; auto.
Qed.

End FromisoformatValues.

(* ===================================================================== *)
(** * Lemmas: slices *)
(* ===================================================================== *)

Section Slices.

Context {A : Type}.
Implicit Types l : list A.

Lemma slice_from_neg l (n : Z) :
  0 < n -> slice_from (- n) l = newest (Z.to_nat n) l.
Proof.
  intros Hn. unfold slice_from, newest, slice_index.
  destruct (Z.ltb_spec (- n) 0) as [_ | ?]; [| lia].
  f_equal. lia.
Qed.

Lemma slice_to_pos l (n : Z) :
  0 < n -> slice_to n l = take (Z.to_nat n) l.
Proof.
  intros Hn. unfold slice_to, slice_index.
  destruct (Z.ltb_spec n 0) as [? | _]; [lia |].
  destruct (Nat.min_spec (Z.to_nat n) (length l)) as [[_ ->] | [Hle ->]].
  - reflexivity.
  - rewrite !firstn_all2 by lia. reflexivity.
Qed.

Lemma length_newest (n : nat) l :
  length (newest n l) = Nat.min n (length l).
Proof. unfold newest. rewrite length_drop. lia. Qed.

Lemma newest_all (n : nat) l : (length l <= n)%nat -> newest n l = l.
Proof.
  intros Hle. unfold newest.
  replace (length l - n)%nat with 0%nat by lia. reflexivity.
Qed.

(** Trimming commutes with appending: what was dropped earlier would be
    dropped now. *)
Lemma newest_app_newest (n : nat) l1 l2 :
  newest n (newest n l1 ++ l2) = newest n (l1 ++ l2).
Proof.
  destruct (Nat.le_gt_cases (length l1) n) as [Hl1 | Hl1].
  - rewrite (newest_all n l1) by assumption. reflexivity.
  - unfold newest. rewrite !length_app, length_drop.
    rewrite !skipn_app, length_drop, drop_drop.
    f_equal; f_equal; lia.
Qed.

Lemma newest_snoc_last (n : nat) l (x : A) :
  (1 <= n)%nat -> last (newest n (l ++ [x])) = Some x.
Proof.
  intros Hn. unfold newest. rewrite length_app. cbn [length].
  rewrite drop_app_le by lia. apply last_snoc.
Qed.

End Slices.

(* ===================================================================== *)
(** * Lemmas: the methods as state transformers *)
(* ===================================================================== *)

Section Operations.

Implicit Types (obj : ForumMemory) (w : World).

Lemma _save_eq obj w : _save (obj, w) = (Ok tt, (obj, saved obj w)).
Proof.
  unfold _save, saved, try_catch, mbind, self_gets, gets, io, json_dump,
    mbind, gets, logger, modify, raise, logged.
  cbn [fst snd]. fold (dumped obj).
  destruct (blocked w (_storage_path obj)); [reflexivity |].
  destruct (encode_error (dumped obj)); [reflexivity |].
  cbn [failing set_file].
  destruct (bool_decide (_storage_path obj ∈ failing w)); [reflexivity |].
  unfold set_file. cbn [files readonly failing log].
  rewrite insert_insert_eq. reflexivity.
Qed.

Lemma blocked_denied w (p : path) : blocked w p = true <-> p ∈ denied w.
Proof.
  unfold blocked, denied. rewrite elem_of_PropSet, orb_true_iff.
  rewrite bool_decide_eq_true. reflexivity.
Qed.

Lemma blocked_not_denied w (p : path) : p ∉ denied w -> blocked w p = false.
Proof.
  intros Hp. destruct (blocked w p) eqn:Hb; [| reflexivity].
  apply blocked_denied in Hb. contradiction.
Qed.

Lemma not_denied_not_hidden w (p : path) :
  p ∉ denied w -> is_hidden (files w !! p) = false.
Proof.
  intros Hp. apply blocked_not_denied in Hp. unfold blocked in Hp.
  apply orb_false_elim in Hp as [_ Hp]. exact Hp.
Qed.

Lemma blocked_logged w l msg (p : path) :
  blocked (logged w l msg) p = blocked w p.
Proof. reflexivity. Qed.

(** Writing a file changes what is blocked at no path, unless it
    uncovers a hidden one. *)
Lemma blocked_set_file w (p q : path) (f : file) :
  is_hidden (files w !! p) = false -> is_hidden (Some f) = false ->
  blocked (set_file p f w) q = blocked w q.
Proof.
  intros Hp Hf. unfold blocked, set_file. cbn [files readonly].
  f_equal. destruct (decide (p = q)) as [-> | Hne].
  - rewrite lookup_insert_eq, Hp. exact Hf.
  - rewrite lookup_insert_ne by assumption. reflexivity.
Qed.

Lemma blocked_saved obj w (q : path) :
  blocked (saved obj w) q = blocked w q.
Proof.
  unfold saved.
  destruct (blocked w (_storage_path obj)) eqn:Hb; [reflexivity |].
  assert (Hh : is_hidden (files w !! _storage_path obj) = false).
  { unfold blocked in Hb. apply orb_false_elim in Hb as [_ Hb]. exact Hb. }
  destruct (encode_error (dumped obj));
    [rewrite blocked_logged; apply blocked_set_file; auto |].
  destruct (bool_decide _);
    [rewrite blocked_logged |]; apply blocked_set_file; auto.
Qed.

Lemma add_diary_eq content metadata now obj w :
  add_diary content metadata now (obj, w) =
  let obj' :=
    with_memories obj
      (trim (_max_items obj)
         (_memories obj ++ [appended_entry content metadata now])) in
  (Ok tt,
   (obj', logged (saved obj' w) DEBUG
            (AddedDiary (str_prefix 50 content)))).
Proof.
  unfold add_diary, mbind, self_gets, gets, set_memories, modify, ret.
  cbn [fst snd _memories _max_items _storage_path].
  unfold trim, with_memories, appended_entry.
  destruct (Z.of_nat _ >? _max_items obj);
    cbn [fst snd _memories _max_items _storage_path];
    rewrite _save_eq; reflexivity.
Qed.

Lemma clear_eq obj w :
  clear (obj, w) =
  (Ok tt, (with_memories obj [],
           logged (saved (with_memories obj []) w) INFO Cleared)).
Proof.
  unfold clear, mbind, set_memories, modify. cbn [fst snd].
  fold (with_memories obj []). rewrite _save_eq. reflexivity.
Qed.

Lemma trim_newest (max_items : Z) (ms : list MemoryItem) :
  0 < max_items -> trim max_items ms = newest (Z.to_nat max_items) ms.
Proof.
  intros Hpos. unfold trim.
  destruct (Z.gtb_spec (Z.of_nat (length ms)) max_items).
  - apply slice_from_neg. assumption.
  - symmetry. apply newest_all. lia.
Qed.

Lemma add_diaries_eq (rs : list request) : forall obj w,
  0 < _max_items obj ->
  exists w',
    add_diaries rs (obj, w) =
    (Ok tt,
     (with_memories obj
        match rs with
        | [] => _memories obj
        | _ => newest (Z.to_nat (_max_items obj))
                 (_memories obj ++ map entry_of rs)
        end, w')).
Proof.
  induction rs as [| [[content metadata] now] rs IH]; intros obj w Hpos.
  - exists w. destruct obj. reflexivity.
  - cbn [add_diaries]. unfold mbind at 1. rewrite add_diary_eq. cbv zeta.
    rewrite trim_newest by assumption.
    edestruct IH as [w' ->]; [exact Hpos |].
    exists w'. do 2 f_equal. unfold with_memories at 1 3.
    cbn [_max_items _memories _storage_path with_memories].
    f_equal. destruct rs as [| r rs]; [reflexivity |].
    rewrite newest_app_newest, <- app_assoc. reflexivity.
Qed.

End Operations.

Section Queries.

Implicit Types (obj : ForumMemory) (w : World).

Lemma get_diaries_eq limit obj w :
  get_diaries limit (obj, w) =
  (Ok (if truthy limit
       then slice_to (default 0 limit) (rev (_memories obj))
       else rev (_memories obj)),
   (obj, w)).
Proof. reflexivity. Qed.

Lemma __len___eq obj w :
  __len__ (obj, w) = (Ok (length (_memories obj)), (obj, w)).
Proof. reflexivity. Qed.

(** A negative limit drops that many of the oldest entries instead. *)
Lemma get_diaries_negative (n : Z) obj w :
  n < 0 ->
  get_diaries (Some n) (obj, w) =
  (Ok (take (length (_memories obj) - Z.to_nat (- n))
         (rev (_memories obj))), (obj, w)).
Proof.
  intros Hn. rewrite get_diaries_eq. unfold truthy.
  destruct (Z.eqb_spec n 0) as [? | _]; [lia |].
  cbn [negb default from_option]. unfold id.
  unfold slice_to, slice_index. rewrite length_rev.
  destruct (Z.ltb_spec n 0) as [_ | ?]; [| lia].
  do 3 f_equal. lia.
Qed.

End Queries.

Section Loading.

Implicit Types (obj : ForumMemory) (w : World).

Lemma _load_eq obj w :
  _load (obj, w) =
  match files w !! _storage_path obj with
  | None => (Ok tt, (obj, w))
  | Some Hidden => (Raise OSError, (obj, w))
  | Some f =>
      match read_entries f with
      | Ok ms => (Ok tt, (with_memories obj ms,
                          logged w DEBUG (Loaded (length ms))))
      | Raise e => (Ok tt, (with_memories obj [],
                            logged w ERROR (LoadFailed e)))
      end
  end.
Proof.
  unfold _load, mbind at 1, self_gets, gets. cbn [fst snd].
  unfold mbind at 1, io, path_exists, mbind, gets. cbn [fst snd].
  destruct (files w !! _storage_path obj) as [f |] eqn:Hf;
    [| destruct obj, w; reflexivity].
  destruct f as [| | | v |];
    unfold ret, raise; cbn [negb];
    unfold try_catch, mbind, io, json_load, mbind, gets, lift, raise;
    cbn [fst snd]; rewrite ?Hf; try (destruct obj, w; reflexivity).
  cbn [read_entries ret]. unfold ret.
  destruct (iterate v) as [records | e]; [| reflexivity].
  cbn [bind]. destruct (comprehension _ _ records); reflexivity.
Qed.


(** When nothing raises, the comprehension maps the kept elements, in
    order. *)
Lemma comprehension_filter {A B} (keep : A -> result bool) (k : A -> bool)
    (f : A -> result B) (xs : list A) :
  Forall (fun x => keep x = Ok (k x)) xs ->
  Forall (fun x => k x = true -> is_ok (f x) = true) xs ->
  exists ys,
    comprehension keep f xs = Ok ys /\
    Forall2 (fun x y => f x = Ok y) (List.filter k xs) ys.
Proof.
  induction xs as [| x xs IH]; intros Hkeep Hf.
  - exists []. split; [reflexivity | constructor].
  - apply Forall_cons in Hkeep as [Hk Hkeep].
    apply Forall_cons in Hf as [Hx Hf].
    destruct (IH Hkeep Hf) as (ys & Hys & Hall).
    cbn [comprehension List.filter]. rewrite Hk. cbn [bind].
    destruct (k x).
    + destruct (f x) as [y |] eqn:Hy; [| specialize (Hx eq_refl); discriminate].
      exists (y :: ys). cbn [bind]. rewrite Hys. cbn [bind].
      split; [reflexivity | constructor; assumption].
    + exists ys. split; assumption.
Qed.

Lemma is_diary_record (data : dict) :
  is_diary (PDict data) = Ok (has_diary_tag (PDict data)).
Proof. reflexivity. Qed.


End Loading.

Section Construction.

Implicit Types (obj : ForumMemory) (w : World).

Lemma __init___eq host max_items storage_dir w :
  __init__ host max_items storage_dir w =
  let (p, w1) := resolved host storage_dir w in
  if blocked w1 (parent p) then (Raise OSError, w1)
  else call (mk_ForumMemory max_items [] p) _load w1.
Proof.
  unfold __init__, resolved.
  destruct storage_dir as [dir |].
  - unfold mbind, ret, os_makedirs, mbind, gets, raise.
    destruct (blocked _ _); reflexivity.
  - unfold mbind at 1, try_catch, mbind at 1, lift.
    destruct (get_data_dir host _) as [data_dir | e].
    + unfold ret, mbind, os_makedirs, mbind, gets, raise.
      destruct (blocked _ _); reflexivity.
    + unfold mbind at 1, logger, modify, ret, mbind, os_makedirs, mbind,
        gets, raise.
      fold (logged w WARNING (DataDirFailed e)).
      destruct (blocked _ _); reflexivity.
Qed.

(** Determining the storage path touches no file and no permission. *)
Lemma resolved_world host storage_dir w :
  exists msgs,
    snd (resolved host storage_dir w) =
    mk_World (files w) (readonly w) (failing w) (log w ++ msgs).
Proof.
  unfold resolved. destruct storage_dir;
    [exists []; rewrite app_nil_r; destruct w; reflexivity |].
  destruct (get_data_dir host _);
    [exists []; rewrite app_nil_r; destruct w; reflexivity |].
  eexists [_]. reflexivity.
Qed.

Lemma resolved_blocked host storage_dir w (q : path) :
  blocked (snd (resolved host storage_dir w)) q = blocked w q.
Proof.
  destruct (resolved_world host storage_dir w) as [msgs ->]. reflexivity.
Qed.

(** Unless the status of the backing path cannot be read, [_load]
    returns; it touches nothing of the object but its entries, and nothing
    of the world but the log. *)
Lemma _load_returns obj w :
  is_hidden (files w !! _storage_path obj) = false ->
  exists ms msgs,
    _load (obj, w) =
    (Ok tt, (with_memories obj ms,
             mk_World (files w) (readonly w) (failing w) (log w ++ msgs))).
Proof.
  intros Hh. rewrite _load_eq.
  destruct (files w !! _storage_path obj) as [f |].
  - destruct f; try discriminate Hh;
      match goal with
      | |- context [read_entries ?f] =>
          destruct (read_entries f) as [ms | e]
      end; eexists _, [_]; reflexivity.
  - exists (_memories obj), []. rewrite app_nil_r.
    destruct obj, w. reflexivity.
Qed.

End Construction.

(* ===================================================================== *)
(** * The embedding at work *)
(* ===================================================================== *)

Example isoformat_noon : isoformat noon = "2025-01-15T12:00:00".
Proof. vm_compute. reflexivity. Qed.

Example isoformat_aware :
  isoformat (mk_datetime 2024 2 29 13 5 9 1234 (Some (- 19800000000))) =
  "2024-02-29T13:05:09.001234-05:30".
Proof. vm_compute. reflexivity. Qed.

Example fromisoformat_date_only :
  fromisoformat_str "2025-01-15" = Ok (mk_datetime 2025 1 15 0 0 0 0 None).
Proof. vm_compute. reflexivity. Qed.

Example fromisoformat_milliseconds :
  fromisoformat_str "2025-01-15 12:00:00.250+00:00" =
  Ok (mk_datetime 2025 1 15 12 0 0 250000 (Some 0)).
Proof. vm_compute. reflexivity. Qed.

Example fromisoformat_no_such_day :
  fromisoformat_str "2023-02-29T00:00:00" = Raise ValueError.
Proof. vm_compute. reflexivity. Qed.

Example fromisoformat_not_a_date :
  fromisoformat_str "yesterday" = Raise ValueError.
Proof. vm_compute. reflexivity. Qed.

Example fromisoformat_zulu :
  fromisoformat_str "20250115T120000Z" =
  Ok (mk_datetime 2025 1 15 12 0 0 0 (Some 0)).
Proof. vm_compute. reflexivity. Qed.

Example fromisoformat_week_date :
  fromisoformat_str "2025-W03-3" = Ok (mk_datetime 2025 1 15 0 0 0 0 None).
Proof. vm_compute. reflexivity. Qed.

(** An offset below one second comes back as UTC. *)
Example fromisoformat_small_offset :
  fromisoformat_str "2025-01-15T12:00:00+00:00:00.000001" =
  Ok (mk_datetime 2025 1 15 12 0 0 0 (Some 0)).
Proof. vm_compute. reflexivity. Qed.

Example strftime_noon : strftime_md_HM noon = "01-15 12:00".
Proof. vm_compute. reflexivity. Qed.

Example slice_last_two : slice_from (- 2) [1; 2; 3] = [2; 3].
Proof. reflexivity. Qed.

(** [l[-0:]] is [l[0:]], the whole list. *)
Example slice_from_zero : slice_from (- 0) [1; 2; 3] = [1; 2; 3].
Proof. reflexivity. Qed.

Example slice_drop_last : slice_to (- 1) [1; 2; 3] = [1; 2].
Proof. reflexivity. Qed.

(** With the capacity 0 the trimming step keeps everything. *)
Example zero_capacity_never_trims :
  fst (call (sample_journal 0 [])
         (add_diaries [("a", None, noon); ("b", None, noon)]) empty_world) =
  Ok (sample_journal 0 [entry "a"; entry "b"]).
Proof. vm_compute. reflexivity. Qed.

(** A write that fails is logged and the entry stays in memory. *)
Example add_diary_on_denied_path :
  let w := mk_World ∅ {[ sample_path ]} ∅ [] in
  call (sample_journal 50 []) (add_diary "a" None noon) w =
  (Ok (sample_journal 50 [entry "a"]),
   mk_World ∅ {[ sample_path ]} ∅
     [(ERROR, SaveFailed OSError); (DEBUG, AddedDiary "a")]).
Proof. vm_compute. reflexivity. Qed.

(** Metadata that cannot be serialised: the entry stays in memory, the
    backing file is left cut off, and the next construction finds
    nothing. *)
Example add_diary_with_an_object :
  let w := world_with (Json (PList [stored "diary" "a"])) in
  let w' := snd (call (sample_journal 50 [entry "a"])
                   (add_diary "b" (Some [("when", PObject)]) noon) w) in
  files w' !! sample_path = Some Malformed /\
  log w' = [(ERROR, SaveFailed TypeError); (DEBUG, AddedDiary "b")] /\
  fst (__init__ sample_host 50 None w') = Ok (sample_journal 50 []).
Proof. vm_compute. repeat split. Qed.

(** The preview of the debug trace counts characters, not bytes. *)
Example str_prefix_characters :
  str_prefix 3 "日记日记日记" = "日记日" /\ str_prefix 3 "diary" = "dia".
Proof. vm_compute. split; reflexivity. Qed.

(** The warning and the fall-back path when the host cannot give a data
    directory. *)
Example __init___fallback_path :
  __init__ (mk_Host (fun _ => Raise ValueError) ["data"]) 50 None empty_world =
  (Ok (sample_journal 50 []),
   mk_World ∅ ∅ ∅ [(WARNING, DataDirFailed ValueError)]).
Proof. vm_compute. reflexivity. Qed.

(* ===================================================================== *)
(** * The properties of the specification *)
(* ===================================================================== *)

Section Capacity.

Implicit Types (obj : ForumMemory) (w : World).

Lemma add_diary_within_capacity content metadata now obj w :
  0 < _max_items obj ->
  within_capacity (fst (snd (add_diary content metadata now (obj, w)))).
Proof.
  intros Hpos. rewrite add_diary_eq. cbv zeta. cbn [fst snd].
  unfold within_capacity, with_memories. cbn [_memories _max_items].
  rewrite trim_newest, length_newest by assumption. lia.
Qed.

Lemma clear_within_capacity obj w :
  0 <= _max_items obj -> within_capacity (fst (snd (clear (obj, w)))).
Proof. intros Hpos. rewrite clear_eq. exact Hpos. Qed.

Lemma __init___without_file host max_items storage_dir w :
  let (p, w1) := resolved host storage_dir w in
  parent p ∉ denied w1 -> files w1 !! p = None ->
  __init__ host max_items storage_dir w =
  (Ok (mk_ForumMemory max_items [] p), w1).
Proof.
  rewrite __init___eq. destruct (resolved host storage_dir w) as [p w1].
  intros Hdir Hfile. rewrite blocked_not_denied by assumption.
  unfold call. rewrite _load_eq. cbn [_storage_path]. rewrite Hfile.
  reflexivity.
Qed.

End Capacity.

(** C1. After more appends than the capacity, starting from an empty
    journal with a positive capacity, the size is the capacity and
    [get_diaries()] returns the last [max_items] appended entries, newest
    first. *)
Theorem appends_beyond_capacity (obj : ForumMemory) (w : World)
    (rs : list request) :
  _memories obj = [] ->
  0 < _max_items obj ->
  _max_items obj < Z.of_nat (length rs) ->
  exists obj' w',
    add_diaries rs (obj, w) = (Ok tt, (obj', w')) /\
    __len__ (obj', w') = (Ok (Z.to_nat (_max_items obj)), (obj', w')) /\
    get_diaries None (obj', w') =
    (Ok (rev (newest (Z.to_nat (_max_items obj)) (map entry_of rs))),
     (obj', w')).
Proof.
  intros Hempty Hpos Hmore.
  destruct (add_diaries_eq rs obj w Hpos) as [w' Hrun].
  rewrite Hempty in Hrun. cbn [app] in Hrun.
  destruct rs as [| r rs]; [cbn in Hmore; lia |].
  eexists _, w'. split; [exact Hrun |].
  rewrite __len___eq, get_diaries_eq. cbn [truthy with_memories _memories].
  rewrite length_newest, length_map.
  split; [| reflexivity]. do 2 f_equal. lia.
Qed.

(** The example of the specification: capacity 2 and the appends "a", "b",
    "c". *)
Lemma appends_beyond_capacity_abc :
  exists obj' w',
    add_diaries [("a", None, noon); ("b", None, noon); ("c", None, noon)]
      (sample_journal 2 [], empty_world) = (Ok tt, (obj', w')) /\
    __len__ (obj', w') = (Ok 2%nat, (obj', w')) /\
    get_diaries None (obj', w') = (Ok [entry "c"; entry "b"], (obj', w')).
Proof.
  apply (appends_beyond_capacity (sample_journal 2 []) empty_world
           [("a", None, noon); ("b", None, noon); ("c", None, noon)]).
  - reflexivity.
  - reflexivity.
  - reflexivity.
Defined.

(** C10. On a journal that holds more entries than its capacity
    [max_items >= 1], one [add_diary] restores the bound: exactly
    [max_items] entries remain, the newest of the sequence with the new
    entry appended, and the new entry is among them. *)
Theorem add_diary_restores_bound (obj : ForumMemory) (w : World)
    (content : string) (metadata : option dict) (now : datetime) :
  1 <= _max_items obj ->
  _max_items obj < Z.of_nat (length (_memories obj)) ->
  exists obj' w',
    add_diary content metadata now (obj, w) = (Ok tt, (obj', w')) /\
    Z.of_nat (length (_memories obj')) = _max_items obj /\
    _memories obj' =
      newest (Z.to_nat (_max_items obj))
        (_memories obj ++ [appended_entry content metadata now]) /\
    last (_memories obj') = Some (appended_entry content metadata now).
Proof.
  intros Hpos Hover. rewrite add_diary_eq. cbv zeta.
  eexists _, _. split; [reflexivity |].
  cbn [with_memories _memories]. rewrite trim_newest by lia.
  split; [| split; [reflexivity |]].
  - rewrite length_newest, length_app. cbn [length]. lia.
  - apply newest_snoc_last. lia.
Qed.

Lemma add_diary_restores_bound_sample :
  exists obj' w',
    add_diary "d" None noon
      (sample_journal 2 [entry "a"; entry "b"; entry "c"], empty_world) =
    (Ok tt, (obj', w')) /\
    Z.of_nat (length (_memories obj')) = 2 /\
    _memories obj' = [entry "c"; entry "d"] /\
    last (_memories obj') = Some (entry "d").
Proof.
  apply (add_diary_restores_bound
           (sample_journal 2 [entry "a"; entry "b"; entry "c"]) empty_world
           "d" None noon).
  - cbn. lia.
  - reflexivity.
Defined.

(** C2. Loading does not trim: constructing a journal of capacity 2 on a
    backing file that holds three diary records yields three entries. *)
Theorem load_exceeds_capacity :
  exists obj w',
    __init__ sample_host 2 None
      (world_with (Json (PList [stored "diary" "a"; stored "diary" "b";
                                stored "diary" "c"]))) = (Ok obj, w') /\
    _max_items obj = 2 /\
    length (_memories obj) = 3%nat /\
    ~ within_capacity obj.
Proof.
  eexists _, _. split; [vm_compute; reflexivity |].
  split; [reflexivity |]. split; [reflexivity |].
  unfold within_capacity. cbn. lia.
Qed.

Section Records.

Lemma from_dict_record (m : MemoryItem) :
  stable_entry m -> from_dict (to_dict m) = Ok m.
Proof.
  intros [Hok Hoff]. destruct m as [c t md]. unfold from_dict, to_dict.
  cbn [content timestamp metadata] in *.
  unfold getitem, dict_get.
  cbn [dict_lookup String.eqb Ascii.eqb Bool.eqb bind fromisoformat].
  rewrite fromisoformat_isoformat by assumption. reflexivity.
Qed.

End Records.

(** C3, as stated, fails: a timestamp whose UTC offset is one microsecond
    comes back with the offset 0, because [fromisoformat] reads an offset
    of less than a second as UTC. *)
Lemma small_offset_is_not_restored :
  from_dict
    (to_dict (mk_MemoryItem (PStr "a")
                (mk_datetime 2025 1 15 12 0 0 0 (Some 1)) (PDict []))) =
  Ok (mk_MemoryItem (PStr "a")
        (mk_datetime 2025 1 15 12 0 0 0 (Some 0)) (PDict [])) /\
  from_dict
    (to_dict (mk_MemoryItem (PStr "a")
                (mk_datetime 2025 1 15 12 0 0 0 (Some 1)) (PDict []))) <>
  Ok (mk_MemoryItem (PStr "a")
        (mk_datetime 2025 1 15 12 0 0 0 (Some 1)) (PDict [])).
Proof. split; [vm_compute; reflexivity | vm_compute; discriminate]. Qed.

(** C3, amended. Serialising an entry and deserialising the record gives
    the entry back (same content, same timestamp, same metadata) whenever
    the timestamp is naive or has a UTC offset that is zero or at least
    one second either way. *)
Theorem from_dict_to_dict (item : MemoryItem) :
  datetime_ok (timestamp item) = true ->
  offset_survives (timestamp item) = true ->
  from_dict (to_dict item) = Ok item.
Proof.
  intros Hok Hoff. apply from_dict_record. split; assumption.
Qed.

Lemma from_dict_to_dict_sample :
  from_dict
    (to_dict (mk_MemoryItem (PStr "met the moderators")
                (mk_datetime 2024 2 29 23 59 58 120034 (Some (- 19800000000)))
                (PDict [("thread", PInt 42)]))) =
  Ok (mk_MemoryItem (PStr "met the moderators")
        (mk_datetime 2024 2 29 23 59 58 120034 (Some (- 19800000000)))
        (PDict [("thread", PInt 42)])).
Proof.
  apply (from_dict_to_dict
           (mk_MemoryItem (PStr "met the moderators")
              (mk_datetime 2024 2 29 23 59 58 120034 (Some (- 19800000000)))
              (PDict [("thread", PInt 42)]))).
  - reflexivity.
  - reflexivity.
Defined.

(** C6. [from_dict] fails exactly when the record has no [content], no
    [timestamp], or a timestamp that [fromisoformat] rejects, and then with
    a malformed-entry exception; a record without [metadata] deserialises
    with the empty mapping. *)
Theorem from_dict_failure (data : dict) :
  ((exists e, from_dict data = Raise e) <->
   (dict_lookup "content" data = None \/
    dict_lookup "timestamp" data = None \/
    exists ts e, dict_lookup "timestamp" data = Some ts /\
                 fromisoformat ts = Raise e)) /\
  (forall e, from_dict data = Raise e -> MalformedEntry e) /\
  (forall c ts t,
     dict_lookup "content" data = Some c ->
     dict_lookup "timestamp" data = Some ts ->
     fromisoformat ts = Ok t ->
     dict_lookup "metadata" data = None ->
     from_dict data = Ok (mk_MemoryItem c t (PDict []))).
Proof.
  unfold from_dict, getitem, dict_get, MalformedEntry.
  destruct (dict_lookup "content" data) as [c |]; cbn [bind];
    [destruct (dict_lookup "timestamp" data) as [ts |]; cbn [bind];
     [destruct (fromisoformat ts) as [t | e0] eqn:Hts; cbn [bind] |] |].
  - split; [split |].
    + intros [e [=]].
    + intros [[=] | [[=] | (ts' & e & [= <-] & He)]]. congruence.
    + split; [intros e [=] |].
      intros c' ts' t' [= <-] [= <-] Ht' ->. congruence.
  - split; [split |].
    + intros _. right. right. eauto.
    + eauto.
    + split; [| intros c' ts' t' [= <-] [= <-] Ht'; congruence].
      intros e [= <-]. apply fromisoformat_raises in Hts. tauto.
  - split; [split |].
    + auto.
    + eauto.
    + split; [intros e [= <-]; auto | intros c' ts' t' _ [=]].
  - split; [split |].
    + auto.
    + eauto.
    + split; [intros e [= <-]; auto | intros c' ts' t' [=]].
Qed.

Lemma from_dict_failure_sample :
  from_dict [("content", PStr "hello");
             ("timestamp", PStr "2025-01-15T12:00:00")] =
  Ok (mk_MemoryItem (PStr "hello") noon (PDict [])).
Proof.
  apply (proj2 (proj2 (from_dict_failure
           [("content", PStr "hello");
            ("timestamp", PStr "2025-01-15T12:00:00")]))
           (PStr "hello") (PStr "2025-01-15T12:00:00") noon);
    reflexivity.
Defined.

(** C7. From a well-formed backing file (a sequence of records whose
    diary records all deserialise), [_load] keeps the diary records and
    only them, in file order; the other records are dropped without an
    error. *)
Theorem load_keeps_diary_records (obj : ForumMemory) (w : World)
    (records : list pyval) :
  files w !! _storage_path obj = Some (Json (PList records)) ->
  Forall (fun d => exists data, d = PDict data) records ->
  Forall (fun d => has_diary_tag d = true ->
                   is_ok (from_dict_value d) = true) records ->
  exists ms,
    _load (obj, w) =
    (Ok tt, (with_memories obj ms, logged w DEBUG (Loaded (length ms)))) /\
    Forall2 (fun d m => from_dict_value d = Ok m)
      (List.filter has_diary_tag records) ms.
Proof.
  intros Hfile Hrecords Hdiary.
  destruct (comprehension_filter is_diary has_diary_tag from_dict_value
              records) as (ms & Hms & Hall).
  - eapply Forall_impl; [exact Hrecords |].
    intros d [data ->]. apply is_diary_record.
  - exact Hdiary.
  - exists ms. split; [| exact Hall].
    rewrite _load_eq, Hfile. cbn [read_entries iterate bind].
    rewrite Hms. reflexivity.
Qed.

Lemma load_keeps_diary_records_sample :
  exists ms,
    _load (sample_journal 50 [],
           world_with (Json (PList [stored "diary" "a"; stored "post" "x";
                                    stored "diary" "b"]))) =
    (Ok tt,
     (with_memories (sample_journal 50 []) ms,
      logged (world_with (Json (PList [stored "diary" "a"; stored "post" "x";
                                       stored "diary" "b"])))
        DEBUG (Loaded (length ms)))) /\
    Forall2 (fun d m => from_dict_value d = Ok m)
      [stored "diary" "a"; stored "diary" "b"] ms.
Proof.
  apply (load_keeps_diary_records (sample_journal 50 [])
           (world_with (Json (PList [stored "diary" "a"; stored "post" "x";
                                     stored "diary" "b"])))
           [stored "diary" "a"; stored "post" "x"; stored "diary" "b"]).
  - vm_compute. reflexivity.
  - repeat constructor; eexists; reflexivity.
  - repeat constructor; intros _; vm_compute; reflexivity.
Defined.

Section FailureTolerance.

Lemma is_hidden_spec (f : option file) :
  is_hidden f = true <-> f = Some Hidden.
Proof.
  destruct f as [[] |]; cbn [is_hidden]; split; congruence.
Qed.

Lemma not_hidden (f : option file) : f <> Some Hidden -> is_hidden f = false.
Proof.
  intros Hf. destruct (is_hidden f) eqn:Hh; [| reflexivity].
  apply is_hidden_spec in Hh. contradiction.
Qed.

(** [_load] on a backing path whose status cannot be read. *)
Lemma _load_hidden (obj : ForumMemory) (w : World) :
  is_hidden (files w !! _storage_path obj) = true ->
  _load (obj, w) = (Raise OSError, (obj, w)).
Proof.
  intros Hh. apply is_hidden_spec in Hh. rewrite _load_eq, Hh. reflexivity.
Qed.

End FailureTolerance.




(** C5, as stated, fails: a journal of capacity 0 is constructed. *)
Lemma zero_capacity_is_accepted :
  fst (__init__ sample_host 0 None empty_world) = Ok (sample_journal 0 []) /\
  ~ (exists e, fst (__init__ sample_host 0 None empty_world) = Raise e).
Proof.
  assert (H : fst (__init__ sample_host 0 None empty_world) =
              Ok (sample_journal 0 [])) by (vm_compute; reflexivity).
  split; [exact H |]. rewrite H. intros [e [=]].
Qed.

(** C5, amended. Construction does not check the capacity: with a
    non-positive capacity it returns a journal of that capacity whenever
    the storage directory can be created and the status of the backing
    path can be read. *)
Theorem construction_accepts_any_capacity (host : Host) (max_items : Z)
    (storage_dir : option path) (w : World) :
  max_items <= 0 ->
  parent (fst (resolved host storage_dir w)) ∉ denied w ->
  files w !! fst (resolved host storage_dir w) <> Some Hidden ->
  exists obj w',
    __init__ host max_items storage_dir w = (Ok obj, w') /\
    _max_items obj = max_items /\
    _storage_path obj = fst (resolved host storage_dir w).
Proof.
  intros _ Hdir Hfile. rewrite __init___eq.
  pose proof (resolved_blocked host storage_dir w) as Hden.
  destruct (resolved_world host storage_dir w) as [msgs Hw1].
  destruct (resolved host storage_dir w) as [p w1]. cbn [fst snd] in *.
  rewrite Hden, blocked_not_denied by assumption.
  unfold call.
  destruct (_load_returns (mk_ForumMemory max_items [] p) w1)
    as (ms & msgs' & ->).
  { subst w1. cbn [_storage_path files].
    destruct (files w !! p) as [[] |]; first [reflexivity | congruence]. }
  eexists _, _. repeat split.
Qed.

Lemma construction_accepts_any_capacity_sample :
  exists obj w',
    __init__ sample_host (- 3) (Some sample_dir) empty_world = (Ok obj, w') /\
    _max_items obj = - 3 /\
    _storage_path obj = sample_path.
Proof.
  apply (construction_accepts_any_capacity sample_host (- 3)
           (Some sample_dir) empty_world).
  - lia.
  - intros Hin. apply blocked_denied in Hin. vm_compute in Hin.
    discriminate.
  - vm_compute. discriminate.
Defined.

(** C8. The claim is right and [get_diaries] misses one case: the guard
    [if limit:] takes the limit 0 for no limit, so [get_diaries(0)]
    returns every entry where "maximum number of entries to return" asks
    for none. *)
Theorem zero_limit_is_no_limit :
  fst (get_diaries (Some 0) (sample_journal 50 [entry "a"], empty_world)) =
  Ok [entry "a"] /\
  fst (get_diaries (Some 0) (sample_journal 50 [entry "a"], empty_world)) <>
  Ok (take (Z.to_nat 0) (rev (_memories (sample_journal 50 [entry "a"])))).
Proof. split; [reflexivity | discriminate]. Qed.

Section Capping.

(** The guard and the slice of [get_diaries], for a limit that is absent
    or not negative. *)
Lemma get_diaries_capped (limit : option Z) (obj : ForumMemory) (w : World) :
  (forall n, limit = Some n -> 0 <= n) ->
  get_diaries limit (obj, w) =
  (Ok (capped limit (rev (_memories obj))), (obj, w)).
Proof.
  intros Hlimit. rewrite get_diaries_eq. do 2 f_equal.
  destruct limit as [n |]; [| reflexivity].
  specialize (Hlimit n eq_refl). unfold truthy, capped.
  destruct (Z.eqb_spec n 0); [reflexivity |].
  cbn [negb default from_option]. unfold id. apply slice_to_pos. lia.
Qed.

End Capping.

Section SummaryText.

Variable str_other : pyval -> string.

Lemma strftime_minute_precision (t1 t2 : datetime) :
  month t1 = month t2 -> day t1 = day t2 ->
  hour t1 = hour t2 -> minute t1 = minute t2 ->
  strftime_md_HM t1 = strftime_md_HM t2.
Proof. unfold strftime_md_HM. intros -> -> -> ->. reflexivity. Qed.

Lemma get_summary_eq (limit : Z) (obj : ForumMemory) (w : World) :
  get_summary str_other limit (obj, w) =
  (Ok match fst (get_diaries (Some limit) (obj, w)) with
      | Ok (item :: items) =>
          join newline (HEADER :: map (summary_line str_other) (item :: items))
      | _ => NO_DIARY
      end, (obj, w)).
Proof.
  unfold get_summary, mbind. rewrite get_diaries_eq. cbn [fst].
  destruct (if truthy (Some limit) then _ else _); reflexivity.
Qed.

End SummaryText.

(** C9. The claim is right and [get_summary] misses one case: it hands
    its limit to [get_diaries], whose guard [if limit:] takes 0 for no
    limit, so [get_summary(0)] lists every entry where "maximum number of
    entries to include" asks for none. *)
Theorem zero_limit_summary_lists_entries :
  fst (get_summary (fun _ => "") 0
         (sample_journal 50 [entry "a"], empty_world)) =
  Ok (join newline [HEADER; summary_line (fun _ => "") (entry "a")]) /\
  fst (get_summary (fun _ => "") 0
         (sample_journal 50 [entry "a"], empty_world)) <>
  Ok (join newline
        (HEADER ::
         map (summary_line (fun _ => ""))
           (take (Z.to_nat 0) (rev (_memories (sample_journal 50 [entry "a"])))))).
Proof.
  split; [reflexivity |].
  intros H.
  apply (f_equal (fun r => match r with
                           | Ok s => String.length s
                           | Raise _ => 0%nat
                           end)) in H.
  vm_compute in H. discriminate H.
Qed.

(** The default call on an empty journal. *)
Example get_summary_empty :
  fst (get_summary (fun _ => "") DEFAULT_LIMIT
         (sample_journal 50 [], empty_world)) = Ok NO_DIARY.
Proof. reflexivity. Qed.

(** A negative limit that exceeds the size hides every entry: the summary
    is the empty-journal message although the journal is not empty. *)
Example get_summary_negative_limit :
  fst (get_summary (fun _ => "") (- 5)
         (sample_journal 50 [entry "a"], empty_world)) = Ok NO_DIARY.
Proof. reflexivity. Qed.

(* ===================================================================== *)
(** * Further properties: persistence *)
(* ===================================================================== *)

Section Persistence.

Implicit Types (obj : ForumMemory) (w : World) (m : MemoryItem).

Lemma parent_path_div (p : path) (name : string) : parent (p /: name) = p.
Proof. unfold parent, path_div. apply removelast_last. Qed.

Lemma from_dict_stable (data : dict) m :
  from_dict data = Ok m -> stable_entry m.
Proof.
  unfold from_dict, stable_entry.
  destruct (getitem data "content") as [c |]; [| discriminate].
  destruct (getitem data "timestamp") as [ts |]; [| discriminate].
  cbn [bind]. destruct ts; cbn [fromisoformat bind]; try discriminate.
  destruct (fromisoformat_str s) as [t |] eqn:Ht; [| discriminate].
  cbn [bind]. intros [= <-]. cbn [timestamp].
  exact (fromisoformat_str_valid _ _ Ht).
Qed.



Lemma trim_suffix (max_items : Z) (ms : list MemoryItem) :
  exists k, trim max_items ms = drop k ms.
Proof.
  unfold trim, slice_from.
  destruct (Z.of_nat (length ms) >? max_items); [eauto | exists 0%nat; reflexivity].
Qed.


Lemma app_singleton_neq {A : Type} (l : list A) (x : A) : l ++ [x] <> l.
Proof.
  intros H. apply (f_equal length) in H. rewrite length_app in H.
  cbn [length] in H. lia.
Qed.

(** A save that logs nothing has written the records of the entries. *)
Lemma saved_quiet obj w :
  log (saved obj w) = log w ->
  saved obj w = set_file (_storage_path obj) (Json (dumped obj)) w.
Proof.
  unfold saved.
  destruct (blocked w (_storage_path obj));
    [intros H; destruct (app_singleton_neq _ _ H) |].
  destruct (encode_error (dumped obj));
    [intros H; destruct (app_singleton_neq _ _ H) |].
  destruct (bool_decide _);
    [intros H; destruct (app_singleton_neq _ _ H) | reflexivity].
Qed.

(** When a save logs nothing: the path can be written, the entries can be
    encoded and the write does not fail. *)
Lemma saved_succeeds obj w :
  _storage_path obj ∉ denied w ->
  _storage_path obj ∉ failing w ->
  encode_error (dumped obj) = None ->
  log (saved obj w) = log w.
Proof.
  intros Hden Hfail Henc. unfold saved.
  rewrite blocked_not_denied, Henc, bool_decide_eq_false_2 by assumption.
  reflexivity.
Qed.


End Persistence.



Section Restart.

Implicit Types (obj : ForumMemory) (w : World) (m : MemoryItem).


(** What [clear] leaves on a path that can be written. *)
Lemma saved_cleared obj w :
  _storage_path obj ∉ denied w ->
  saved (with_memories obj []) w =
  if bool_decide (_storage_path obj ∈ failing w)
  then logged (set_file (_storage_path obj) Malformed w) ERROR
         (SaveFailed OSError)
  else set_file (_storage_path obj) (Json (PList [])) w.
Proof.
  intros Hfile. unfold saved. cbn [with_memories _storage_path].
  rewrite blocked_not_denied by assumption. reflexivity.
Qed.

(** Construction on an explicit directory after [clear]. *)
Lemma __init___on_cleared host obj w (dir : path) (max_items : Z)
    (l : level) (msg : message) :
  _storage_path obj = dir /: "forum_memory.json" ->
  dir ∉ denied w ->
  _storage_path obj ∉ denied w ->
  exists w'',
    __init__ host max_items (Some dir)
      (logged (saved (with_memories obj []) w) l msg) =
    (Ok (mk_ForumMemory max_items [] (_storage_path obj)), w'').
Proof.
  intros Hp Hdir Hfile. rewrite __init___eq. cbn [resolved].
  rewrite parent_path_div.
  rewrite blocked_logged, blocked_saved, blocked_not_denied by assumption.
  unfold call. rewrite _load_eq. cbn [_storage_path]. rewrite <- Hp.
  rewrite saved_cleared by assumption.
  destruct (bool_decide _); cbn [logged set_file files];
    rewrite lookup_insert_eq; eexists; reflexivity.
Qed.

End Restart.



(** X3. A restart after [clear] finds an empty journal: when the write is
    permitted, [clear] leaves no entry in memory and a journal constructed
    on the same directory afterwards has none either. *)
Theorem restart_after_clear (host : Host) (obj : ForumMemory) (w : World)
    (dir : path) (max_items : Z) :
  _storage_path obj = dir /: "forum_memory.json" ->
  dir ∉ denied w ->
  _storage_path obj ∉ denied w ->
  exists obj' w' w'',
    clear (obj, w) = (Ok tt, (obj', w')) /\
    __len__ (obj', w') = (Ok 0%nat, (obj', w')) /\
    __init__ host max_items (Some dir) w' =
    (Ok (mk_ForumMemory max_items [] (_storage_path obj)), w'').
Proof.
  intros Hp Hdir Hfile. rewrite clear_eq.
  destruct (__init___on_cleared host obj w dir max_items INFO Cleared
              Hp Hdir Hfile) as [w'' Hinit].
  eexists _, _, w''. split; [reflexivity |]. split; [reflexivity |].
  exact Hinit.
Qed.

Lemma restart_after_clear_sample :
  exists obj' w' w'',
    clear (sample_journal 2 [entry "a"; entry "b"],
           world_with (Json (PList [stored "diary" "a"; stored "diary" "b"]))) =
    (Ok tt, (obj', w')) /\
    __len__ (obj', w') = (Ok 0%nat, (obj', w')) /\
    __init__ sample_host 50 (Some sample_dir) w' =
    (Ok (mk_ForumMemory 50 [] sample_path), w'').
Proof.
  apply (restart_after_clear sample_host
           (sample_journal 2 [entry "a"; entry "b"])
           (world_with (Json (PList [stored "diary" "a"; stored "diary" "b"])))
           sample_dir 50).
  - reflexivity.
  - intros Hin. apply blocked_denied in Hin. vm_compute in Hin.
    discriminate.
  - intros Hin. apply blocked_denied in Hin. vm_compute in Hin.
    discriminate.
Defined.

(** X4. A write that cannot start costs nothing but the persistence: when
    the backing path cannot be opened for writing, [add_diary] still
    returns normally, holds in memory the same entries as it would with a
    working disk, leaves every file as it was, and logs the failure after
    the debug trace of the first 50 characters of the content. *)
Theorem add_diary_survives_write_failure (obj : ForumMemory) (w w2 : World)
    (content : string) (metadata : option dict) (now : datetime) :
  _storage_path obj ∈ denied w ->
  exists obj' w',
    add_diary content metadata now (obj, w) = (Ok tt, (obj', w')) /\
    obj' = fst (snd (add_diary content metadata now (obj, w2))) /\
    files w' = files w /\
    log w' = log w ++ [(ERROR, SaveFailed OSError);
                       (DEBUG, AddedDiary (str_prefix 50 content))].
Proof.
  intros Hden. rewrite !add_diary_eq. cbv zeta.
  eexists _, _. split; [reflexivity |]. split; [reflexivity |].
  unfold saved. cbn [with_memories _storage_path].
  apply blocked_denied in Hden. rewrite Hden.
  cbn [logged files log]. rewrite <- app_assoc. split; reflexivity.
Qed.

Lemma add_diary_survives_write_failure_sample :
  exists obj' w',
    add_diary "a" None noon
      (sample_journal 50 [], mk_World ∅ {[ sample_path ]} ∅ []) =
    (Ok tt, (obj', w')) /\
    obj' = fst (snd (add_diary "a" None noon
                       (sample_journal 50 [], empty_world))) /\
    files w' = files (mk_World ∅ {[ sample_path ]} ∅ []) /\
    log w' = log (mk_World ∅ {[ sample_path ]} ∅ []) ++
             [(ERROR, SaveFailed OSError);
              (DEBUG, AddedDiary (str_prefix 50 "a"))].
Proof.
  apply (add_diary_survives_write_failure (sample_journal 50 [])
           (mk_World ∅ {[ sample_path ]} ∅ []) empty_world "a" None noon).
  apply blocked_denied. vm_compute. reflexivity.
Defined.

(** X5. Saving twice writes the same files as saving once. *)
Theorem save_twice_same_files (obj : ForumMemory) (w : World) :
  files (snd (snd (_save (obj, snd (snd (_save (obj, w))))))) =
  files (snd (snd (_save (obj, w)))).
Proof.
  rewrite !_save_eq. cbn [snd].
  unfold saved at 1. rewrite blocked_saved.
  unfold saved.
  destruct (blocked w (_storage_path obj)); [reflexivity |].
  destruct (encode_error (dumped obj));
    [cbn [logged set_file files failing]; apply insert_insert_eq |].
  destruct (bool_decide (_storage_path obj ∈ failing w)) eqn:Hf;
    cbn [logged set_file files failing]; rewrite Hf;
    cbn [logged set_file files]; apply insert_insert_eq.
Qed.

(** X6. A save that logs no failure rewrites the backing file, and only
    it: the file then holds one diary-tagged record for each entry
    (whatever records of other kinds it held before are gone), and every
    other path is as it was. *)
Theorem save_writes_diary_records_only (obj : ForumMemory) (w : World) :
  let w' := snd (snd (_save (obj, w))) in
  log w' = log w ->
  exists records,
    _save (obj, w) = (Ok tt, (obj, w')) /\
    files w' !! _storage_path obj = Some (Json (PList records)) /\
    length records = length (_memories obj) /\
    Forall (fun d => has_diary_tag d = true) records /\
    (forall q, q <> _storage_path obj -> files w' !! q = files w !! q).
Proof.
  rewrite _save_eq. cbn [snd]. intros Hq. rewrite (saved_quiet obj w Hq).
  eexists. split; [reflexivity |]. cbn [set_file files].
  split; [apply lookup_insert_eq |].
  split; [apply length_map |].
  split.
  - apply Forall_map, Forall_forall. intros m _. reflexivity.
  - intros q Hne. apply lookup_insert_ne. congruence.
Qed.

Lemma save_writes_diary_records_only_sample :
  exists records,
    _save (sample_journal 50 [entry "a"],
           world_with (Json (PList [stored "post" "x"; stored "post" "y"]))) =
    (Ok tt,
     (sample_journal 50 [entry "a"],
      snd (snd (_save (sample_journal 50 [entry "a"],
                       world_with
                         (Json (PList [stored "post" "x";
                                       stored "post" "y"]))))))) /\
    files (snd (snd (_save (sample_journal 50 [entry "a"],
                            world_with
                              (Json (PList [stored "post" "x";
                                            stored "post" "y"]))))))
      !! sample_path = Some (Json (PList records)) /\
    length records = 1%nat /\
    Forall (fun d => has_diary_tag d = true) records /\
    (forall q, q <> sample_path ->
       files (snd (snd (_save (sample_journal 50 [entry "a"],
                               world_with
                                 (Json (PList [stored "post" "x";
                                               stored "post" "y"]))))))
         !! q =
       files (world_with (Json (PList [stored "post" "x"; stored "post" "y"])))
         !! q).
Proof.
  apply (save_writes_diary_records_only (sample_journal 50 [entry "a"])
           (world_with (Json (PList [stored "post" "x"; stored "post" "y"])))).
  vm_compute. reflexivity.
Defined.

(* ===================================================================== *)
(** * Further properties: capacity and order *)
(* ===================================================================== *)

Section Runs.

Implicit Types (obj : ForumMemory) (w : World).

Lemma perform_eq (o : operation) obj w :
  exists ms w',
    perform o (obj, w) = (Ok tt, (with_memories obj ms, w')) /\
    ms = match o with
         | Add r => trim (_max_items obj) (_memories obj ++ [entry_of r])
         | Clear => []
         end.
Proof.
  destruct o as [[[content metadata] now] |]; cbn [perform].
  - rewrite add_diary_eq. cbv zeta. eauto.
  - rewrite clear_eq. eauto.
Qed.

Lemma trim_within (max_items : Z) (ms : list MemoryItem) :
  0 < max_items -> Z.of_nat (length (trim max_items ms)) <= max_items.
Proof.
  intros Hpos. rewrite trim_newest, length_newest by assumption. lia.
Qed.

Lemma trim_zero (ms : list MemoryItem) : trim 0 ms = ms.
Proof.
  unfold trim. destruct (Z.of_nat (length ms) >? 0); reflexivity.
Qed.

Lemma trim_negative (max_items : Z) (ms : list MemoryItem) :
  max_items < 0 -> trim max_items ms = drop (Z.to_nat (- max_items)) ms.
Proof.
  intros Hneg. unfold trim.
  destruct (Z.gtb_spec (Z.of_nat (length ms)) max_items) as [_ | ?]; [| lia].
  unfold slice_from, slice_index.
  destruct (Z.ltb_spec (- max_items) 0) as [? | _]; [lia |].
  destruct (Nat.min_spec (Z.to_nat (- max_items)) (length ms))
    as [[_ ->] | [Hle ->]]; [reflexivity |].
  rewrite !drop_ge by lia. reflexivity.
Qed.

End Runs.

(** X7. [add_diary] never reorders or alters what the journal holds: for
    every capacity, the entries afterwards are a suffix of the old entries
    followed by the new one. *)
Theorem add_diary_keeps_a_suffix (obj : ForumMemory) (w : World)
    (content : string) (metadata : option dict) (now : datetime) :
  exists obj' w' k,
    add_diary content metadata now (obj, w) = (Ok tt, (obj', w')) /\
    _memories obj' =
      drop k (_memories obj ++ [appended_entry content metadata now]) /\
    _max_items obj' = _max_items obj /\
    _storage_path obj' = _storage_path obj.
Proof.
  rewrite add_diary_eq. cbv zeta.
  destruct (trim_suffix (_max_items obj)
              (_memories obj ++ [appended_entry content metadata now]))
    as [k Hk].
  eexists _, _, k. split; [reflexivity |].
  cbn [with_memories _memories _max_items _storage_path].
  rewrite Hk. repeat split.
Qed.

(** X8. With a positive capacity the bound is an invariant of the
    mutating methods: a journal within its capacity stays within it
    through every sequence of [add_diary] and [clear] calls, none of which
    raises. *)
Theorem capacity_is_invariant (os : list operation) :
  forall (obj : ForumMemory) (w : World),
  0 < _max_items obj ->
  within_capacity obj ->
  exists obj' w',
    perform_all os (obj, w) = (Ok tt, (obj', w')) /\
    within_capacity obj' /\
    _max_items obj' = _max_items obj.
Proof.
  induction os as [| o os IH]; intros obj w Hpos Hin.
  - exists obj, w. repeat split. exact Hin.
  - cbn [perform_all]. unfold mbind.
    destruct (perform_eq o obj w) as (ms & w1 & -> & Hms).
    destruct (IH (with_memories obj ms) w1) as (obj' & w' & -> & Hin' & Hmax).
    + exact Hpos.
    + unfold within_capacity. cbn [with_memories _memories _max_items].
      subst ms. destruct o; [apply trim_within; exact Hpos | cbn; lia].
    + exists obj', w'. repeat split; assumption.
Qed.

Lemma capacity_is_invariant_sample :
  exists obj' w',
    perform_all [Add ("a", None, noon); Add ("b", None, noon); Clear;
                 Add ("c", None, noon); Add ("d", None, noon);
                 Add ("e", None, noon)]
      (sample_journal 2 [], empty_world) = (Ok tt, (obj', w')) /\
    within_capacity obj' /\
    _max_items obj' = 2.
Proof.
  apply (capacity_is_invariant
           [Add ("a", None, noon); Add ("b", None, noon); Clear;
            Add ("c", None, noon); Add ("d", None, noon);
            Add ("e", None, noon)]
           (sample_journal 2 []) empty_world).
  - reflexivity.
  - unfold within_capacity. cbn. lia.
Defined.

(** X9. The capacity 0 is no capacity: the trimming slice [[-0:]] is the
    whole list, so every appended entry is kept and the journal grows
    without bound. *)
Theorem zero_capacity_keeps_everything (rs : list request) :
  forall (obj : ForumMemory) (w : World),
  _max_items obj = 0 ->
  exists w',
    add_diaries rs (obj, w) =
    (Ok tt, (with_memories obj (_memories obj ++ map entry_of rs), w')).
Proof.
  induction rs as [| [[content metadata] now] rs IH]; intros obj w Hzero.
  - exists w. cbn [add_diaries map]. rewrite app_nil_r.
    destruct obj. reflexivity.
  - cbn [add_diaries]. unfold mbind at 1. rewrite add_diary_eq. cbv zeta.
    rewrite Hzero, trim_zero.
    edestruct IH as [w' ->]; [exact Hzero |].
    exists w'. cbn [with_memories _memories _max_items _storage_path map].
    rewrite <- app_assoc. reflexivity.
Qed.

Lemma zero_capacity_keeps_everything_sample :
  exists w',
    add_diaries [("a", None, noon); ("b", None, noon); ("c", None, noon)]
      (sample_journal 0 [], empty_world) =
    (Ok tt, (sample_journal 0 [entry "a"; entry "b"; entry "c"], w')).
Proof.
  apply (zero_capacity_keeps_everything
           [("a", None, noon); ("b", None, noon); ("c", None, noon)]
           (sample_journal 0 []) empty_world).
  reflexivity.
Defined.

(** X10. With a negative capacity [-k] the trimming slice is [[k:]]:
    [add_diary] drops the [k] oldest of the entries it holds after the
    append, the new entry itself when nothing else is left. *)
Theorem negative_capacity_drops_oldest (obj : ForumMemory) (w : World)
    (content : string) (metadata : option dict) (now : datetime) :
  _max_items obj < 0 ->
  exists obj' w',
    add_diary content metadata now (obj, w) = (Ok tt, (obj', w')) /\
    _memories obj' =
      drop (Z.to_nat (- _max_items obj))
        (_memories obj ++ [appended_entry content metadata now]).
Proof.
  intros Hneg. rewrite add_diary_eq. cbv zeta.
  eexists _, _. split; [reflexivity |].
  cbn [with_memories _memories]. apply trim_negative. exact Hneg.
Qed.

Lemma negative_capacity_drops_oldest_sample :
  exists obj' w',
    add_diary "a" None noon (sample_journal (- 1) [], empty_world) =
    (Ok tt, (obj', w')) /\
    _memories obj' = [].
Proof.
  apply (negative_capacity_drops_oldest (sample_journal (- 1) [])
           empty_world "a" None noon).
  reflexivity.
Defined.

(** X11. A negative limit [-k] does not cap the listing to its newest
    entries: [get_diaries] returns the newest-first listing without its
    last [k] elements, the [k] oldest entries, and leaves the journal as
    it is. *)
Theorem get_diaries_negative_limit (k : Z) (obj : ForumMemory) (w : World) :
  0 < k ->
  get_diaries (Some (- k)) (obj, w) =
  (Ok (rev (drop (Z.to_nat k) (_memories obj))), (obj, w)).
Proof.
  intros Hk. rewrite get_diaries_negative by lia.
  do 2 f_equal. rewrite Z.opp_involutive, firstn_rev. f_equal.
  destruct (Nat.le_gt_cases (Z.to_nat k) (length (_memories obj))).
  - f_equal. lia.
  - rewrite !drop_ge by lia. reflexivity.
Qed.

Lemma get_diaries_negative_limit_sample :
  get_diaries (Some (- 1))
    (sample_journal 50 [entry "a"; entry "b"; entry "c"], empty_world) =
  (Ok [entry "c"; entry "b"],
   (sample_journal 50 [entry "a"; entry "b"; entry "c"], empty_world)).
Proof.
  apply (get_diaries_negative_limit 1
           (sample_journal 50 [entry "a"; entry "b"; entry "c"]) empty_world).
  reflexivity.
Defined.

(* ===================================================================== *)
(** * Further properties: construction, records and queries *)
(* ===================================================================== *)

Section Outcomes.

Implicit Types (obj : ForumMemory) (w : World).

Lemma join_header_not_empty (parts : list string) :
  join newline (HEADER :: parts) <> "".
Proof. destruct parts; discriminate. Qed.

End Outcomes.



(** X13. A failure of the host's directory service does not by itself
    fail the construction: when no directory is given and [get_data_dir]
    raises, [__init__] logs a warning first and uses the fall-back path
    under the data root; it returns normally when the fall-back directory
    can be created and the status of the backing path can be read. *)
Theorem init_falls_back (host : Host) (max_items : Z) (w : World)
    (e : exn) :
  let fallback :=
    get_astrbot_data_path host /: "plugin_data" /: "astrbot-plugin-astrbook" in
  get_data_dir host "astrbot-plugin-astrbook" = Raise e ->
  fallback ∉ denied w ->
  files w !! (fallback /: "forum_memory.json") <> Some Hidden ->
  exists obj w' msgs,
    __init__ host max_items None w = (Ok obj, w') /\
    _storage_path obj = fallback /: "forum_memory.json" /\
    _max_items obj = max_items /\
    log w' = log w ++ (WARNING, DataDirFailed e) :: msgs /\
    files w' = files w.
Proof.
  intros fallback Hhost Hdir Hfile. subst fallback.
  rewrite __init___eq. cbn [resolved].
  rewrite Hhost. rewrite parent_path_div.
  rewrite blocked_logged, blocked_not_denied by assumption.
  unfold call.
  destruct (_load_returns
              (mk_ForumMemory max_items []
                 (get_astrbot_data_path host /: "plugin_data"
                    /: "astrbot-plugin-astrbook" /: "forum_memory.json"))
              (logged w WARNING (DataDirFailed e)))
    as (ms & msgs & ->);
    [cbn [_storage_path logged files]; apply not_hidden; exact Hfile |].
  eexists _, _, msgs.
  cbn [bind with_memories _storage_path _max_items log files logged].
  rewrite <- app_assoc. repeat split.
Qed.

Lemma init_falls_back_sample :
  exists obj w' msgs,
    __init__ (mk_Host (fun _ => Raise ValueError) ["data"]) 50 None
      empty_world = (Ok obj, w') /\
    _storage_path obj = sample_path /\
    _max_items obj = 50 /\
    log w' = log empty_world ++ (WARNING, DataDirFailed ValueError) :: msgs /\
    files w' = files empty_world.
Proof.
  apply (init_falls_back (mk_Host (fun _ => Raise ValueError) ["data"])
           50 empty_world ValueError).
  - reflexivity.
  - intros Hin. apply blocked_denied in Hin. vm_compute in Hin.
    discriminate.
  - vm_compute. discriminate.
Defined.

(** X14. Whatever [from_dict] accepts serialises to a record that it
    accepts again, with the same result: a loaded entry survives every
    later save and load unchanged. *)
Theorem from_dict_is_stable (data : dict) (m : MemoryItem) :
  from_dict data = Ok m -> from_dict (to_dict m) = Ok m.
Proof.
  intros Hm. apply from_dict_record. exact (from_dict_stable data m Hm).
Qed.

Lemma from_dict_is_stable_sample :
  from_dict
    (to_dict (mk_MemoryItem (PInt 7) (mk_datetime 2025 1 15 0 0 0 0 None)
                (PList []))) =
  Ok (mk_MemoryItem (PInt 7) (mk_datetime 2025 1 15 0 0 0 0 None) (PList [])).
Proof.
  apply (from_dict_is_stable
           [("timestamp", PStr "2025-01-15"); ("kind", PStr "note");
            ("metadata", PList []); ("content", PInt 7)]).
  vm_compute. reflexivity.
Defined.

(** X15. [to_dict] loses nothing: two entries with valid timestamps that
    serialise to the same record are the same entry. *)
Theorem to_dict_injective (m1 m2 : MemoryItem) :
  valid_entry m1 -> valid_entry m2 -> to_dict m1 = to_dict m2 -> m1 = m2.
Proof.
  destruct m1 as [c1 t1 md1], m2 as [c2 t2 md2].
  unfold valid_entry, to_dict. cbn [content timestamp metadata].
  intros H1 H2.
  remember (isoformat t1) as s1 eqn:E1. remember (isoformat t2) as s2 eqn:E2.
  intros [= -> Hs ->].
  rewrite (isoformat_injective t1 t2 H1 H2) by congruence. reflexivity.
Qed.

Lemma to_dict_injective_sample :
  appended_entry "a" (Some []) noon = entry "a".
Proof.
  apply (to_dict_injective (appended_entry "a" (Some []) noon) (entry "a"));
    reflexivity.
Defined.

(** X16. Loading only reads: [_load] changes no file and nothing of what
    may be written, whatever the backing file holds; it only adds to the
    log.  It returns normally unless the status of the backing path
    cannot be read, in which case it raises [OSError]. *)
Theorem load_only_reads (obj : ForumMemory) (w : World) :
  exists r obj' w' msgs,
    _load (obj, w) = (r, (obj', w')) /\
    r = (if is_hidden (files w !! _storage_path obj)
         then Raise OSError else Ok tt) /\
    files w' = files w /\
    readonly w' = readonly w /\
    failing w' = failing w /\
    log w' = log w ++ msgs /\
    _max_items obj' = _max_items obj /\
    _storage_path obj' = _storage_path obj.
Proof.
  destruct (is_hidden (files w !! _storage_path obj)) eqn:Hh.
  - rewrite _load_hidden by assumption.
    eexists _, _, _, []. rewrite app_nil_r. repeat split.
  - destruct (_load_returns obj w Hh) as (ms & msgs & ->).
    eexists _, _, _, msgs. repeat split.
Qed.

(** X17. Only a JSON array yields entries: when the backing file holds
    any other JSON value (an object, a string, a number, a boolean or
    null), a journal loaded from it is empty. *)
Theorem load_of_a_non_array (max_items : Z) (p : path) (w : World)
    (v : pyval) :
  files w !! p = Some (Json v) ->
  (forall records, v <> PList records) ->
  exists obj' w',
    call (mk_ForumMemory max_items [] p) _load w = (Ok obj', w') /\
    _memories obj' = [].
Proof.
  intros Hfile Hv. unfold call. rewrite _load_eq. cbn [_storage_path].
  rewrite Hfile. cbn [read_entries].
  assert (Hread : forall ms, bind (iterate v) (fun records =>
                    comprehension is_diary from_dict_value records) = Ok ms ->
                  ms = []).
  { destruct v as [| b | z | f | s | l | d |]; cbn [iterate bind];
      try discriminate.
    - destruct (list_ascii_of_string s) as [| c cs]; cbn; [| discriminate].
      intros ms [= <-]. reflexivity.
    - exfalso. exact (Hv l eq_refl).
    - destruct d as [| [k x] d]; cbn; [| discriminate].
      intros ms [= <-]. reflexivity. }
  destruct (bind _ _) as [ms | e].
  - rewrite (Hread ms eq_refl). eexists _, _. split; reflexivity.
  - eexists _, _. split; reflexivity.
Qed.

Lemma load_of_a_non_array_sample :
  exists obj' w',
    call (sample_journal 50 []) _load
      (world_with (Json (PDict [("memory_type", PStr "diary");
                                ("content", PStr "a");
                                ("timestamp", PStr "2025-01-15T12:00:00")]))) =
    (Ok obj', w') /\
    _memories obj' = [].
Proof.
  apply (load_of_a_non_array 50 sample_path
           (world_with (Json (PDict [("memory_type", PStr "diary");
                                     ("content", PStr "a");
                                     ("timestamp", PStr "2025-01-15T12:00:00")])))
           (PDict [("memory_type", PStr "diary"); ("content", PStr "a");
                   ("timestamp", PStr "2025-01-15T12:00:00")])).
  - vm_compute. reflexivity.
  - intros records. discriminate.
Defined.

(** X18. [get_summary] always has something to say: for every limit
    (zero and negative ones too) and every journal it returns a text that
    is not empty, and leaves the journal and the world as they are. *)
Theorem get_summary_is_never_empty (str_other : pyval -> string) (limit : Z)
    (obj : ForumMemory) (w : World) :
  exists text,
    get_summary str_other limit (obj, w) = (Ok text, (obj, w)) /\
    text <> "".
Proof.
  rewrite get_summary_eq. eexists. split; [reflexivity |].
  destruct (fst (get_diaries (Some limit) (obj, w))) as [[| item items] | e];
    [discriminate | apply join_header_not_empty | discriminate].
Qed.

(** X19. With no limit, [get_diaries] returns the entries newest first
    (the reversal of the journal, no re-sort by timestamp); with a
    positive limit, the first [limit] of them.  The journal is left as it
    is. *)
Theorem get_diaries_newest_first (limit : option Z) (obj : ForumMemory)
    (w : World) :
  (forall n, limit = Some n -> 0 < n) ->
  get_diaries limit (obj, w) =
  (Ok (match limit with
       | None => rev (_memories obj)
       | Some n => take (Z.to_nat n) (rev (_memories obj))
       end), (obj, w)).
Proof.
  intros Hlimit. rewrite get_diaries_capped.
  - destruct limit as [n |]; [| reflexivity].
    specialize (Hlimit n eq_refl). unfold capped.
    destruct (Z.eqb_spec n 0); [lia | reflexivity].
  - intros n Hn. specialize (Hlimit n Hn). lia.
Qed.

Lemma get_diaries_newest_first_sample :
  get_diaries (Some 2)
    (sample_journal 50 [entry "a"; entry "b"; entry "c"], empty_world) =
  (Ok [entry "c"; entry "b"],
   (sample_journal 50 [entry "a"; entry "b"; entry "c"], empty_world)).
Proof.
  apply (get_diaries_newest_first (Some 2)
           (sample_journal 50 [entry "a"; entry "b"; entry "c"]) empty_world).
  intros n [= <-]. lia.
Defined.

(** X20. With a positive limit, [get_summary] returns the fixed message
    of the empty journal when there is no entry, and otherwise the header
    followed by one line for each of the newest [limit] entries, newest
    first, joined by newlines.  The journal is left as it is. *)
Theorem get_summary_text (str_other : pyval -> string) (limit : Z)
    (obj : ForumMemory) (w : World) :
  0 < limit ->
  get_summary str_other limit (obj, w) =
  (Ok match _memories obj with
      | [] => NO_DIARY
      | _ =>
          join newline
            (HEADER ::
             map (summary_line str_other)
               (take (Z.to_nat limit) (rev (_memories obj))))
      end, (obj, w)).
Proof.
  intros Hpos. rewrite get_summary_eq.
  rewrite get_diaries_capped by (intros n [= <-]; lia).
  cbn [fst capped]. destruct (Z.eqb_spec limit 0); [lia |].
  do 2 f_equal.
  destruct (_memories obj) as [| m ms] eqn:Hms.
  - cbn [rev]. rewrite take_nil. reflexivity.
  - destruct (rev (m :: ms)) as [| x xs] eqn:Hrev.
    + apply (f_equal length) in Hrev. rewrite length_rev in Hrev.
      discriminate Hrev.
    + destruct (Z.to_nat limit) as [| k] eqn:Hk; [lia | reflexivity].
Qed.

Lemma get_summary_text_sample :
  get_summary (fun _ => "") 2
    (sample_journal 50 [entry "a"; entry "b"; entry "c"], empty_world) =
  (Ok (join newline [HEADER; summary_line (fun _ => "") (entry "c");
                     summary_line (fun _ => "") (entry "b")]),
   (sample_journal 50 [entry "a"; entry "b"; entry "c"], empty_world)).
Proof.
  apply (get_summary_text (fun _ => "") 2
           (sample_journal 50 [entry "a"; entry "b"; entry "c"])
           empty_world).
  lia.
Defined.
